(** * The [/generate] endpoint of [vllm/entrypoints/api_server.py]

    A shallow embedding of the request handler [LanguageModel.generate]:
    the request body as decoded Python values, the handler as a state and
    exception monad over a log of the calls it makes on its collaborators
    (the engine, the transport, the id generator), and the properties of
    the request lifecycle stated on that embedding. *)

From Stdlib Require Import ZArith NArith List String Ascii Lia Bool.
From Stdlib Require Import Strings.Byte.
From Stdlib Require Import SpecFloat.
From stdpp Require Import gmap list.

Set Warnings "-register-all,-clear-no-such-hyp".
Local Open Scope N_scope.

(** ** Python strings and bytes

    A Python [str] is a sequence of Unicode code points, a [bytes] object a
    sequence of octets. *)

Abbreviation pystr := (list N).
Abbreviation bytes := (list byte).

Definition py (s : string) : pystr := map N_of_ascii (list_ascii_of_string s).

(** ** [json.dumps] on the response dictionary

    [json.dumps] is called with its default arguments: [ensure_ascii=True],
    a comma and a space between items, a colon and a space after a key.
    Strings go through [py_encode_basestring_ascii], which replaces the
    backslash, the double quote and every character outside the range
    from the space to the tilde. *)

Definition hex_digit (n : N) : N := if n <? 10 then 48 + n else 87 + n.

(** ['{0:04x}'.format(n)] for [n < 0x10000]. *)
Definition hex4 (n : N) : pystr :=
  [hex_digit (n / 4096 mod 16); hex_digit (n / 256 mod 16);
   hex_digit (n / 16 mod 16); hex_digit (n mod 16)].

Definition backslash_u (n : N) : pystr := 92 :: 117 :: hex4 n.

Definition escape_char (c : N) : pystr :=
  if c =? 92 then [92; 92]
  else if c =? 34 then [92; 34]
  else if c =? 8 then [92; 98]
  else if c =? 12 then [92; 102]
  else if c =? 10 then [92; 110]
  else if c =? 13 then [92; 114]
  else if c =? 9 then [92; 116]
  else if (32 <=? c) && (c <=? 126) then [c]
  else if c <? 65536 then backslash_u c
  else
    let n := c - 65536 in
    let s1 := N.lor 55296 (N.land (N.shiftr n 10) 1023) in
    let s2 := N.lor 56320 (N.land n 1023) in
    backslash_u s1 ++ backslash_u s2.

Definition py_encode_basestring_ascii (s : pystr) : pystr :=
  34 :: flat_map escape_char s ++ [34].

(** The items joined by a comma and a space. *)
Fixpoint join_items (items : list pystr) : pystr :=
  match items with
  | [] => []
  | [x] => x
  | x :: rest => x ++ py ", " ++ join_items rest
  end.

Definition json_dumps_list (l : list pystr) : pystr :=
  py "[" ++ join_items (map py_encode_basestring_ascii l) ++ py "]".

(** The dictionary with the single key [text] built on lines 51 and 75. *)
Record ret_dict := Ret { ret_text : list pystr }.

Definition json_dumps (ret : ret_dict) : pystr :=
  py "{" ++ py_encode_basestring_ascii (py "text") ++ py ": "
         ++ json_dumps_list (ret_text ret) ++ py "}".

(** ** [str.encode] to UTF-8

    Lone surrogates cannot be encoded ([UnicodeEncodeError]); the result is
    [None] then. *)

Definition octet (n : N) : option byte := Byte.of_N n.

Definition utf8_char (c : N) : option bytes :=
  if c <? 128 then b ← octet c; Some [b]
  else if c <? 2048 then
    b1 ← octet (N.lor 192 (N.shiftr c 6));
    b2 ← octet (N.lor 128 (N.land c 63));
    Some [b1; b2]
  else if c <? 65536 then
    if (55296 <=? c) && (c <=? 57343) then None
    else
      b1 ← octet (N.lor 224 (N.shiftr c 12));
      b2 ← octet (N.lor 128 (N.land (N.shiftr c 6) 63));
      b3 ← octet (N.lor 128 (N.land c 63));
      Some [b1; b2; b3]
  else if c <? 1114112 then
    b1 ← octet (N.lor 240 (N.shiftr c 18));
    b2 ← octet (N.lor 128 (N.land (N.shiftr c 12) 63));
    b3 ← octet (N.lor 128 (N.land (N.shiftr c 6) 63));
    b4 ← octet (N.lor 128 (N.land c 63));
    Some [b1; b2; b3; b4]
  else None.

Fixpoint encode_utf8 (s : pystr) : option bytes :=
  match s with
  | [] => Some []
  | c :: rest =>
      bs ← utf8_char c;
      more ← encode_utf8 rest;
      Some (bs ++ more)
  end.


(** ** The body of a [JSONResponse]

    Starlette renders the body when the response object is built:
    [json.dumps] with [ensure_ascii=False], a bare comma between items and
    a bare colon after a key, then [encode] to UTF-8.  With
    [ensure_ascii=False] strings go through [py_encode_basestring], which
    replaces the backslash, the double quote and the control characters
    below the space, and copies every other character. *)

Definition escape_char_raw (c : N) : pystr :=
  if c =? 92 then [92; 92]
  else if c =? 34 then [92; 34]
  else if c =? 8 then [92; 98]
  else if c =? 12 then [92; 102]
  else if c =? 10 then [92; 110]
  else if c =? 13 then [92; 114]
  else if c =? 9 then [92; 116]
  else if c <? 32 then backslash_u c
  else [c].

Definition py_encode_basestring (s : pystr) : pystr :=
  34 :: flat_map escape_char_raw s ++ [34].

(** The items joined by a comma. *)
Fixpoint join_compact (items : list pystr) : pystr :=
  match items with
  | [] => []
  | [x] => x
  | x :: rest => x ++ py "," ++ join_compact rest
  end.

Definition json_dumps_compact (ret : ret_dict) : pystr :=
  py "{" ++ py_encode_basestring (py "text") ++ py ":" ++ py "["
         ++ join_compact (map py_encode_basestring (ret_text ret))
         ++ py "]" ++ py "}".

(** [JSONResponse.render]: [None] when the dump cannot be encoded. *)
Definition render (content : ret_dict) : option bytes :=
  encode_utf8 (json_dumps_compact content).


(** The characters from the space to the tilde. *)
Definition printable (c : N) : Prop := 32 <= c <= 126.

(** ** Python values

    What [request.json()] can return: the decoding of a JSON document.  A
    [dict] decoded from JSON has string keys. *)

Inductive pyval :=
| PNone
| PBool (b : bool)
| PInt (z : Z)
| PFloat (f : spec_float)
| PStr (s : pystr)
| PList (l : list pyval)
| PDict (m : gmap pystr pyval).

(** The truth value Python gives an object in [if stream:]. *)
Definition truthy (v : pyval) : bool :=
  match v with
  | PNone => false
  | PBool b => b
  | PInt z => negb (z =? 0)%Z
  | PFloat (S754_zero _) => false
  | PFloat _ => true
  | PStr s => match s with [] => false | _ => true end
  | PList l => match l with [] => false | _ => true end
  | PDict m => match map_to_list m with [] => false | _ => true end
  end.

(** The values Python takes for false: [None], [False], the zeros, the
    empty string, list and dictionary. *)
Definition falsy_value (v : pyval) : Prop :=
  v = PNone \/ v = PBool false \/ v = PInt 0
  \/ (exists sign, v = PFloat (S754_zero sign))
  \/ v = PStr [] \/ v = PList [] \/ v = PDict ∅.

(** ** Exceptions and outcomes *)

Inductive exn :=
| JSONDecodeError
| KeyError (key : pystr)
| AttributeError (name : string)
| TypeError (msg : string)
| ValueError (msg : string)
| AssertionError
| UnicodeEncodeError
| EngineError (code : nat).

Inductive outcome (A : Type) :=
| Raised (e : exn)
| Returned (a : A).
Arguments Raised {A} e.
Arguments Returned {A} a.

(** [request_dict.pop(key)]: the value and the dictionary without the key.
    The receiver is whatever [request.json()] returned: a list has a [pop]
    that wants an integer, the other non-dictionaries have no [pop]. *)
Definition dict_pop (request_dict : pyval) (key : pystr)
  : outcome (pyval * gmap pystr pyval) :=
  match request_dict with
  | PDict m =>
      match m !! key with
      | Some v => Returned (v, delete key m)
      | None => Raised (KeyError key)
      end
  | PList _ => Raised (TypeError "'str' object cannot be interpreted as an integer")
  | _ => Raised (AttributeError "pop")
  end.

(** [request_dict.pop(key, default)] on a dictionary. *)
Definition dict_pop_default (m : gmap pystr pyval) (key : pystr) (dflt : pyval)
  : pyval * gmap pystr pyval :=
  (default dflt (m !! key), delete key m).


(** ** Engine outputs and asynchronous generators *)

Abbreviation RequestId := pystr.

Record CompletionOutput := { text : pystr }.

Record RequestOutput := { prompt : pystr; outputs : list CompletionOutput }.

(** How an exhausted generator ends: [StopAsyncIteration], or an exception
    raised from its body. *)
Inductive gen_end :=
| StopAsyncIteration
| GenRaises (e : exn).

(** A generator that ends: the elements it yields, then its end. *)
Record generator (A : Type) := Gen { items : list A; ending : gen_end }.
Arguments Gen {A} items ending.
Arguments items {A} g.
Arguments ending {A} g.

(** Lines 48-50 and 74: [[prompt + output.text for output in
    request_output.outputs]] with [prompt = request_output.prompt]. *)
Definition text_outputs (request_output : RequestOutput) : list pystr :=
  map (fun output => prompt request_output ++ text output)
      (outputs request_output).

(** Line 52: the dumped dictionary followed by the NUL character, encoded
    to UTF-8. *)
Definition chunk_of (request_output : RequestOutput) : option bytes :=
  encode_utf8 (json_dumps (Ret (text_outputs request_output)) ++ [0]).

(** [c] is the chunk of [request_output]: the encoded dump of its
    dictionary, free of NUL, then one NUL octet. *)
Definition chunk_for (request_output : RequestOutput) (c : bytes) : Prop :=
  exists dumped,
    encode_utf8 (json_dumps
                   (Ret (map (fun output => prompt request_output ++ text output)
                             (outputs request_output)))) = Some dumped
    /\ (x00 ∉ dumped)
    /\ c = dumped ++ [x00].

(** ** The state and exception monad *)

Definition M (S A : Type) : Type := S -> outcome A * S.

#[global] Instance M_ret {S} : MRet (M S) := fun A a st => (Returned a, st).

#[global] Instance M_bind {S} : MBind (M S) := fun A B f m st =>
  match m st with
  | (Raised e, st') => (Raised e, st')
  | (Returned a, st') => f a st'
  end.

Definition raise {S A} (e : exn) : M S A := fun st => (Raised e, st).

Definition lift {S A} (o : outcome A) : M S A := fun st => (o, st).

(** ** The handler *)

Section Handler.

Context {SamplingParams : Type}.

(** The calls the handler makes on its collaborators, in the order it makes
    them. *)
Inductive event :=
| EngineGenerate (prompt_arg : pyval) (sampling_params : SamplingParams)
                 (request_id : RequestId)
| GenNext
| IsDisconnected (answer : bool)
| EngineAbort (request_id : RequestId).

Record state := St { uuid_calls : nat; polls : nat; log : list event }.

Definition tell (ev : event) : M state unit := fun st =>
  (Returned tt,
   {| uuid_calls := uuid_calls st; polls := polls st; log := log st ++ [ev] |}).

(** [self.engine]: [generate] returns the asynchronous generator of the
    request's outputs. *)
Record AsyncLLMEngine := {
  engine_generate : pyval -> SamplingParams -> RequestId -> generator RequestOutput
}.

Record LanguageModel := { engine : AsyncLLMEngine }.

(** The request object: the decoded body, or the exception [json()] raises,
    and what the [k]-th call of [is_disconnected()] answers. *)
Record Request := {
  json_result : outcome pyval;
  disconnected_at : nat -> bool
}.

(** Line 40: [SamplingParams] called with the entries of [request_dict] as
    keyword arguments, the engine's constructor and its validation. *)
Variable SamplingParams_init : gmap pystr pyval -> outcome SamplingParams.

(** [random_uuid()]: what its [k]-th call returns. *)
Variable random_uuid : nat -> RequestId.

Definition request_json (request : Request) : M state pyval :=
  lift (json_result request).

Definition is_disconnected (request : Request) : M state bool := fun st =>
  let answer := disconnected_at request (polls st) in
  (Returned answer,
   {| uuid_calls := uuid_calls st; polls := S (polls st);
      log := log st ++ [IsDisconnected answer] |}).

Definition random_uuid_call : M state RequestId := fun st =>
  (Returned (random_uuid (uuid_calls st)),
   {| uuid_calls := S (uuid_calls st); polls := polls st; log := log st |}).

Definition engine_generate_call (e : AsyncLLMEngine) (prompt_arg : pyval)
    (sampling_params : SamplingParams) (request_id : RequestId)
  : M state (generator RequestOutput) :=
  tell (EngineGenerate prompt_arg sampling_params request_id);;
  mret (engine_generate e prompt_arg sampling_params request_id).

Definition engine_abort (request_id : RequestId) : M state unit :=
  tell (EngineAbort request_id).

Inductive response :=
| JSONResponse (content : ret_dict)
| Response (content : bytes) (status : Z)
| StreamingResponse (content : generator bytes) (background : list (M state unit)).

(** Starlette's default status is 200. *)
Definition status_code (r : response) : Z :=
  match r with
  | JSONResponse _ => 200
  | Response _ status => status
  | StreamingResponse _ _ => 200
  end.

(** Lines 45-52, [stream_results]: one chunk for each element of
    [results_generator], as the elements come. *)
Fixpoint stream_items (elements : list RequestOutput) (fin : gen_end)
  : generator bytes :=
  match elements with
  | [] => Gen [] fin
  | request_output :: rest =>
      match chunk_of request_output with
      | Some c =>
          let g := stream_items rest fin in
          Gen (c :: items g) (ending g)
      | None => Gen [] (GenRaises UnicodeEncodeError)
      end
  end.

Definition stream_results (results_generator : generator RequestOutput)
  : generator bytes :=
  stream_items (items results_generator) (ending results_generator).

(** Lines 54-55. *)
Definition abort_request (request_id : RequestId) : M state unit :=
  engine_abort request_id.

(** Lines 64-70, the loop of the non-streaming case.  It leaves either
    through the [return] of line 69 or at the end of [results_generator],
    with [final_output]. *)
Fixpoint consume (request : Request) (request_id : RequestId)
    (elements : list RequestOutput) (fin : gen_end)
    (final_output : option RequestOutput)
  : M state (response + option RequestOutput) :=
  match elements with
  | [] =>
      tell GenNext;;
      match fin with
      | StopAsyncIteration => mret (inr final_output)
      | GenRaises e => raise e
      end
  | request_output :: rest =>
      tell GenNext;;
      gone ← is_disconnected request;
      if gone : bool then
        engine_abort request_id;;
        mret (inl (Response [] 499))
      else
        consume request request_id rest fin (Some request_output)
  end.

(** Line 76, [JSONResponse(ret)]: building the response renders its body,
    which raises [UnicodeEncodeError] when the dump cannot be encoded. *)
Definition JSONResponse_init (content : ret_dict) : M state response :=
  match render content with
  | Some _ => mret (JSONResponse content)
  | None => raise UnicodeEncodeError
  end.

(** Lines 63-76, the non-streaming case. *)
Definition non_streaming (request : Request) (request_id : RequestId)
    (results_generator : generator RequestOutput) : M state response :=
  r ← consume request request_id (items results_generator)
              (ending results_generator) None;
  match r with
  | inl early => mret early
  | inr None => raise AssertionError
  | inr (Some final_output) =>
      JSONResponse_init (Ret (text_outputs final_output))
  end.

(** Lines 37-76. *)
Definition generate (self : LanguageModel) (request : Request)
  : M state response :=
  request_dict ← request_json request;
  '(prompt_arg, request_dict) ← lift (dict_pop request_dict (py "prompt"));
  let '(stream, request_dict) :=
    dict_pop_default request_dict (py "stream") (PBool false) in
  sampling_params ← lift (SamplingParams_init request_dict);
  request_id ← random_uuid_call;
  results_generator ←
    engine_generate_call (engine self) prompt_arg sampling_params request_id;
  if truthy stream then
    mret (StreamingResponse (stream_results results_generator)
                            [abort_request request_id])
  else
    non_streaming request request_id results_generator.

(** A request the handler takes to the engine: its body is a dictionary
    with a [prompt], whatever its value; [stream] is the value of that key
    or [False]; the constructor accepts the remaining keys. *)
Definition valid_request (request : Request) (d : gmap pystr pyval)
    (prompt_arg stream : pyval)
    (sampling_params : SamplingParams) : Prop :=
  json_result request = Returned (PDict d)
  /\ d !! py "prompt" = Some prompt_arg
  /\ default (PBool false) (d !! py "stream") = stream
  /\ SamplingParams_init (delete (py "stream") (delete (py "prompt") d))
     = Returned sampling_params.

(** The state once line 42 has run. *)
Definition submitted (st : state) (prompt_arg : pyval)
    (sampling_params : SamplingParams) : state :=
  {| uuid_calls := S (uuid_calls st); polls := polls st;
     log := log st ++ [EngineGenerate prompt_arg sampling_params
                                      (random_uuid (uuid_calls st))] |}.

(** What the loop of lines 65-70 logs for elements it went through with
    the client still there. *)
Definition quiet_rounds {A} (elements : list A) : list event :=
  flat_map (fun _ => [GenNext; IsDisconnected false]) elements.

End Handler.

(** ** The transport side of a streaming response *)

Section Transport.

Context {SamplingParams : Type}.

Inductive closed_by :=
| NaturalCompletion
| ClientAbort
| ServerSideError (e : exn).

Definition end_reason (fin : gen_end) : closed_by :=
  match fin with
  | StopAsyncIteration => NaturalCompletion
  | GenRaises e => ServerSideError e
  end.

(** Modelled from the spec: the transport that sends the body of a
    streaming response (the server side of [StreamingResponse], which is
    not among the sources).  Sections 4.3 and 4.4: the chunks are flushed
    one at a time, in order, as they become available; the sequence stops
    when the generator is exhausted, when it fails, or when the client has
    gone, here after it accepted [accepts] chunks; no chunk is sent after
    that. *)
Fixpoint deliver (accepts : nat) (chunks : list bytes) (fin : gen_end)
    {struct chunks} : M (@state SamplingParams) (list bytes * closed_by) :=
  match chunks with
  | [] => tell GenNext;; mret ([], end_reason fin)
  | c :: rest =>
      match accepts with
      | O => mret ([], ClientAbort)
      | S k =>
          tell GenNext;;
          '(sent, why) ← deliver k rest fin;
          mret (c :: sent, why)
      end
  end.

(** The tasks of a [BackgroundTasks] object run one after the other. *)
Fixpoint run_tasks (tasks : list (M (@state SamplingParams) unit))
  : M (@state SamplingParams) unit :=
  match tasks with
  | [] => mret tt
  | task :: rest => task;; run_tasks rest
  end.

(** Modelled from the spec: the finalizer of section 4.4.  When the
    transport closes, for any reason (normal completion, client abort,
    server-side error), the background tasks of the response run. *)
Definition serve_streaming (r : @response SamplingParams) (accepts : nat)
  : M (@state SamplingParams) (list bytes * closed_by) :=
  match r with
  | StreamingResponse content background =>
      '(sent, why) ← deliver accepts (items content) (ending content);
      run_tasks background;;
      mret (sent, why)
  | JSONResponse _ | Response _ _ => mret ([], NaturalCompletion)
  end.

(** [task] awaited [n] times in a row. *)
Fixpoint repeat_task (n : nat) (task : M (@state SamplingParams) unit)
  : M (@state SamplingParams) unit :=
  match n with
  | O => mret tt
  | S k => task;; repeat_task k task
  end.

(** Modelled from the spec: the engine's [abort] of section 6, which
    fails silently if the id is unknown or already finished.  The engine's
    state is the set of the request ids it still generates for; a request
    that completed, failed or was cancelled is no longer in it. *)
Definition spec_abort (request_id : RequestId) (in_flight : gset RequestId)
  : outcome unit * gset RequestId :=
  if decide (request_id ∈ in_flight)
  then (Returned tt, in_flight ∖ {[request_id]})
  else (Returned tt, in_flight).

(** Modelled from the spec: the engine calls of a log replayed on the
    engine's state; submission registers the id, [abort] is [spec_abort].
    The replay stops at the first call that raises. *)
Fixpoint engine_replay (calls : list (@event SamplingParams))
    (in_flight : gset RequestId) : outcome unit * gset RequestId :=
  match calls with
  | [] => (Returned tt, in_flight)
  | EngineGenerate _ _ request_id :: rest =>
      engine_replay rest ({[request_id]} ∪ in_flight)
  | EngineAbort request_id :: rest =>
      match spec_abort request_id in_flight with
      | (Returned _, in_flight') => engine_replay rest in_flight'
      | (Raised e, in_flight') => (Raised e, in_flight')
      end
  | _ :: rest => engine_replay rest in_flight
  end.

End Transport.

(** ** A scripted engine, to run the handler on concrete requests

    The properties below hold for every engine and every constructor of
    sampling parameters; these stand-ins fix them to evaluate the handler. *)

Module Demo.

(** Keeps the keyword arguments; like the engine's validation, rejects a
    negative temperature. *)
Definition SamplingParams_init (kw : gmap pystr pyval)
  : outcome (gmap pystr pyval) :=
  match kw !! py "temperature" with
  | Some (PInt z) =>
      if (z <? 0)%Z then Raised (ValueError "temperature must be non-negative")
      else Returned kw
  | Some (PFloat (S754_finite true _ _)) | Some (PFloat (S754_infinity true)) =>
      Raised (ValueError "temperature must be non-negative")
  | _ => Returned kw
  end.

Definition random_uuid (k : nat) : RequestId := py "id" ++ [48 + N.of_nat k].

(** An engine that yields the scripted generator whatever it is asked. *)
Definition scripted (g : generator RequestOutput)
  : @LanguageModel (gmap pystr pyval) :=
  {| engine := {| engine_generate := fun _ _ _ => g |} |}.

Definition connected : nat -> bool := fun _ => false.

Definition request_of (body : pyval) (gone : nat -> bool)
  : Request :=
  {| json_result := Returned body; disconnected_at := gone |}.

Definition st0 : @state (gmap pystr pyval) :=
  {| uuid_calls := 0; polls := 0; log := [] |}.

Definition hello_world : RequestOutput :=
  {| prompt := py "Hello"; outputs := [ {| text := py " world" |} ] |}.

Definition hello : RequestOutput :=
  {| prompt := py "Hello"; outputs := [ {| text := py " wor" |} ] |}.

Definition goodbye_world : RequestOutput :=
  {| prompt := py "Goodbye"; outputs := [ {| text := py " world" |} ] |}.

(** Two progressively longer outputs, then the end. *)
Definition two_steps : generator RequestOutput :=
  Gen [hello; hello_world] StopAsyncIteration.

Definition nothing : generator RequestOutput := Gen [] StopAsyncIteration.

(** The client is gone when the second element arrives. *)
Definition gone_at_second : nat -> bool := fun k => Nat.eqb k 1.

(** Scenario A of the spec. *)
Definition dict_A : gmap pystr pyval :=
  <[py "prompt" := PStr (py "Hello")]>
    (<[py "stream" := PBool false]>
       (<[py "temperature" := PFloat (S754_zero false)]> ∅)).

(** Scenario B: the same with [stream] true. *)
Definition dict_B : gmap pystr pyval :=
  <[py "prompt" := PStr (py "Hello")]>
    (<[py "stream" := PBool true]>
       (<[py "temperature" := PFloat (S754_zero false)]> ∅)).


(** What remains of the bodies above for the sampling parameters. *)
Definition kw_A : gmap pystr pyval :=
  <[py "temperature" := PFloat (S754_zero false)]> ∅.


(** A temperature the constructor rejects. *)
Definition dict_cold : gmap pystr pyval :=
  <[py "prompt" := PStr (py "Hello")]> (<[py "temperature" := PInt (-1)]> ∅).

(** A [stream] that is a list. *)
Definition dict_stream_list : gmap pystr pyval :=
  <[py "prompt" := PStr (py "Hello")]>
    (<[py "stream" := PList [PStr (py "x")]]> ∅).

Definition run (g : generator RequestOutput) (d : gmap pystr pyval)
    (gone : nat -> bool) :=
  generate SamplingParams_init random_uuid (scripted g)
           (request_of (PDict d) gone) st0.

End Demo.

(** ** Reading a log *)

Section Traces.

Context {SamplingParams : Type}.

(** The ids of the [engine.abort] calls of a log, in order. *)
Definition aborted_ids (calls : list (@event SamplingParams)) : list RequestId :=
  omap (fun ev => match ev with
                  | EngineAbort request_id => Some request_id
                  | _ => None
                  end) calls.

(** The ids of the [engine.generate] calls of a log, in order. *)
Definition submitted_ids (calls : list (@event SamplingParams))
  : list RequestId :=
  omap (fun ev => match ev with
                  | EngineGenerate _ _ request_id => Some request_id
                  | _ => None
                  end) calls.

End Traces.

(** More scripts for the stand-in engine and transport. *)

Module Scripts.

(** One element, then the engine fails. *)
Definition failing : generator RequestOutput :=
  Gen [Demo.hello] (GenRaises (EngineError 1)).

(** The client is gone once both elements of [Demo.two_steps] have come. *)
Definition gone_after_two : nat -> bool := fun k => Nat.leb 2 k.

(** The client is gone from the start. *)
Definition gone : nat -> bool := fun _ => true.



(** A prompt and a text that both hold a NUL character. *)
Definition with_nul : RequestOutput :=
  {| prompt := [0%N; 72%N]; outputs := [ {| text := [105%N; 0%N] |} ] |}.

End Scripts.

(** * Properties *)

(** ** The wire format of a chunk *)

Example json_dumps_hello :
  json_dumps (Ret [py "Hello world"])
  = py "{" ++ [34] ++ py "text" ++ [34] ++ py ": [" ++ [34]
      ++ py "Hello world" ++ [34] ++ py "]}".
Proof. reflexivity. Qed.

(** Escapes: a newline, a NUL, a character beyond the Basic Multilingual
    Plane (U+1F600, as a surrogate pair). *)
Example escape_char_samples :
  escape_char 10 = py "\n" /\ escape_char 0 = py "\u0000"
  /\ escape_char 128512 = py "\ud83d\ude00".
Proof. repeat split; reflexivity. Qed.

Lemma hex_digit_printable n : n < 16 -> printable (hex_digit n).
Proof.
  intros Hn. unfold printable, hex_digit.
  destruct (N.ltb_spec n 10); lia.
Qed.

Lemma hex4_printable n : Forall printable (hex4 n).
Proof.
  unfold hex4.
  repeat apply Forall_cons_2; try apply Forall_nil_2;
    apply hex_digit_printable; apply N.mod_lt; lia.
Qed.

Lemma backslash_u_printable n : Forall printable (backslash_u n).
Proof.
  unfold backslash_u.
  apply Forall_cons_2; [unfold printable; lia |].
  apply Forall_cons_2; [unfold printable; lia |].
  apply hex4_printable.
Qed.

Lemma escape_char_printable c : Forall printable (escape_char c).
Proof.
  unfold escape_char.
  repeat match goal with
         | |- context [if ?c =? ?k then _ else _] =>
             destruct (N.eqb_spec c k);
             [repeat apply Forall_cons_2; try apply Forall_nil_2;
              unfold printable; lia |]
         end.
  destruct ((32 <=? c) && (c <=? 126)) eqn:Hrange.
  - apply andb_true_iff in Hrange as [H1 H2].
    apply N.leb_le in H1, H2.
    apply Forall_cons_2; [split; assumption | apply Forall_nil_2].
  - destruct (c <? 65536).
    + apply backslash_u_printable.
    + apply Forall_app_2; apply backslash_u_printable.
Qed.

Lemma py_encode_basestring_ascii_printable s :
  Forall printable (py_encode_basestring_ascii s).
Proof.
  unfold py_encode_basestring_ascii.
  apply Forall_cons_2; [unfold printable; lia |].
  apply Forall_app_2.
  - induction s as [| c s IH]; simpl; [apply Forall_nil_2 |].
    apply Forall_app_2; [apply escape_char_printable | exact IH].
  - apply Forall_cons_2; [unfold printable; lia | apply Forall_nil_2].
Qed.

Ltac literal_printable :=
  match goal with
  | |- Forall printable (py ?s) =>
      let l := eval vm_compute in (py s) in
      change (Forall printable l);
      repeat (apply Forall_cons_2; [unfold printable; lia |]);
      apply Forall_nil_2
  end.

Lemma join_items_printable (l : list pystr) :
  Forall (Forall printable) l -> Forall printable (join_items l).
Proof.
  induction 1 as [| x l Hx Hl IH]; [apply Forall_nil_2 |].
  destruct l as [| y l']; [exact Hx |].
  change (join_items (x :: y :: l'))
    with (x ++ py ", " ++ join_items (y :: l')).
  apply Forall_app_2; [exact Hx |].
  apply Forall_app_2; [literal_printable | exact IH].
Qed.

Lemma json_dumps_printable ret : Forall printable (json_dumps ret).
Proof.
  unfold json_dumps, json_dumps_list.
  repeat apply Forall_app_2;
    try apply py_encode_basestring_ascii_printable;
    try literal_printable.
  apply join_items_printable, Forall_forall.
  intros x Hx. apply list_elem_of_In, in_map_iff in Hx as (s & <- & _).
  apply py_encode_basestring_ascii_printable.
Qed.

Lemma encode_utf8_app s t :
  encode_utf8 (s ++ t)
  = bs ← encode_utf8 s; more ← encode_utf8 t; Some (bs ++ more).
Proof.
  induction s as [| c s IH]; simpl.
  - destruct (encode_utf8 t); reflexivity.
  - destruct (utf8_char c) as [bc |]; simpl; [| reflexivity].
    rewrite IH. destruct (encode_utf8 s) as [bs |]; simpl; [| reflexivity].
    destruct (encode_utf8 t) as [bt |]; simpl; [| reflexivity].
    by rewrite app_assoc.
Qed.

(** A printable string is encoded, one octet a character, none of them NUL. *)
Lemma encode_utf8_printable s :
  Forall printable s ->
  exists bs, encode_utf8 s = Some bs /\ length bs = length s /\ x00 ∉ bs.
Proof.
  induction 1 as [| c s Hc Hs IH]; simpl.
  - exists []. repeat split. apply not_elem_of_nil.
  - destruct IH as (bs & -> & Hlen & Hnul).
    unfold utf8_char, octet.
    destruct (N.ltb_spec c 128) as [_ | Hge]; [| unfold printable in Hc; lia].
    destruct (Byte.of_N c) as [b |] eqn:Hb.
    + simpl. exists (b :: bs). repeat split; [simpl; lia |].
      apply not_elem_of_cons. split; [| exact Hnul].
      intros <-. apply Byte.to_of_N in Hb. simpl in Hb.
      unfold printable in Hc. lia.
    + apply Byte.of_N_None_iff in Hb. unfold printable in Hc. lia.
Qed.

(** Line 52 never raises: the chunk is the encoded dump, which holds no
    NUL, followed by one NUL octet. *)
Lemma chunk_of_total request_output :
  exists dumped,
    encode_utf8 (json_dumps (Ret (text_outputs request_output))) = Some dumped
    /\ (x00 ∉ dumped)
    /\ chunk_of request_output = Some (dumped ++ [x00]).
Proof.
  destruct (encode_utf8_printable _
              (json_dumps_printable (Ret (text_outputs request_output))))
    as (dumped & Henc & _ & Hnul).
  exists dumped. repeat split; try assumption.
  unfold chunk_of. rewrite encode_utf8_app, Henc. reflexivity.
Qed.

(** ** The rendering of a JSON response *)















Local Close Scope N_scope.

(** ** The handler's control flow *)

Section Properties.

Context {SamplingParams : Type}.
Variable SamplingParams_init : gmap pystr pyval -> outcome SamplingParams.
Variable random_uuid : nat -> RequestId.

Implicit Types (self : @LanguageModel SamplingParams) (request : Request).
Implicit Types (st : @state SamplingParams) (d : gmap pystr pyval).

Local Abbreviation generate := (generate SamplingParams_init random_uuid).
Local Abbreviation valid_request := (valid_request SamplingParams_init).
Local Abbreviation submitted := (submitted random_uuid).

Lemma prompt_stream_keys : py "prompt" <> py "stream".
Proof. discriminate. Qed.

Lemma generate_valid self request d prompt_arg stream sampling_params st :
  valid_request request d prompt_arg stream sampling_params ->
  let request_id := random_uuid (uuid_calls st) in
  let g := engine_generate (engine self) prompt_arg sampling_params request_id in
  let st1 := submitted st prompt_arg sampling_params in
  generate self request st
  = if truthy stream
    then (Returned (StreamingResponse (stream_results g)
                                      [abort_request request_id]), st1)
    else match consume request request_id (items g) (ending g) None st1 with
         | (Raised e, st2) => (Raised e, st2)
         | (Returned (inl early), st2) => (Returned early, st2)
         | (Returned (inr None), st2) => (Raised AssertionError, st2)
         | (Returned (inr (Some final_output)), st2) =>
             (match render (Ret (text_outputs final_output)) with
              | Some _ =>
                  Returned (JSONResponse (Ret (text_outputs final_output)))
              | None => Raised UnicodeEncodeError
              end, st2)
         end.
Proof.
  intros (Hjson & Hprompt & Hstream & Hparams). simpl.
  unfold generate, request_json, lift, mbind, M_bind, dict_pop,
    dict_pop_default.
  rewrite Hjson, Hprompt.
  rewrite lookup_delete_ne by apply prompt_stream_keys.
  rewrite Hstream, Hparams. simpl.
  destruct (truthy stream); [reflexivity |].
  unfold submitted, non_streaming, mbind, M_bind.
  destruct (consume _ _ _ _ _ _) as [[e | [early | [fo |]]] st2];
    try reflexivity.
  unfold JSONResponse_init.
  destruct (render (Ret (text_outputs fo))); reflexivity.
Qed.

Lemma consume_connected request request_id elements fin final_output st :
  (forall k, k < length elements ->
             disconnected_at request (polls st + k) = false) ->
  consume request request_id elements fin final_output st
  = (match fin with
     | StopAsyncIteration =>
         Returned (inr (match last elements with
                        | Some request_output => Some request_output
                        | None => final_output
                        end))
     | GenRaises e => Raised e
     end,
     {| uuid_calls := uuid_calls st;
        polls := polls st + length elements;
        log := log st ++ quiet_rounds elements ++ [GenNext] |}).
Proof.
  revert final_output st.
  induction elements as [| request_output rest IH]; intros final_output st Hquiet.
  - simpl. unfold mbind, M_bind, tell. simpl.
    rewrite Nat.add_0_r. destruct fin; reflexivity.
  - simpl. unfold mbind, M_bind, tell, is_disconnected. simpl.
    pose proof (Hquiet 0 ltac:(simpl; lia)) as H0.
    rewrite Nat.add_0_r in H0. rewrite H0.
    rewrite IH; simpl.
    + f_equal.
      * destruct fin; [| reflexivity].
        destruct rest as [| y rest']; [reflexivity |].
        simpl. destruct (last (y :: rest')) eqn:Hlast; [reflexivity |].
        apply last_None in Hlast. discriminate.
      * f_equal; [lia |].
        rewrite <- !app_assoc. reflexivity.
    + intros k Hk. specialize (Hquiet (S k) ltac:(simpl; lia)).
      rewrite <- Hquiet. f_equal. lia.
Qed.

Lemma consume_disconnected request request_id before request_output after
    fin final_output st :
  (forall k, k < length before ->
             disconnected_at request (polls st + k) = false) ->
  disconnected_at request (polls st + length before) = true ->
  consume request request_id (before ++ request_output :: after) fin
          final_output st
  = (Returned (inl (Response [] 499)),
     {| uuid_calls := uuid_calls st;
        polls := polls st + length before + 1;
        log := log st ++ quiet_rounds before
                 ++ [GenNext; IsDisconnected true; EngineAbort request_id] |}).
Proof.
  revert final_output st.
  induction before as [| x before IH]; intros final_output st Hquiet Hgone.
  - simpl in *. unfold mbind, M_bind, tell, is_disconnected, engine_abort, tell.
    simpl. rewrite Nat.add_0_r in Hgone. rewrite Hgone. simpl.
    rewrite <- !app_assoc. repeat f_equal. lia.
  - simpl. unfold mbind, M_bind, tell, is_disconnected. simpl.
    pose proof (Hquiet 0 ltac:(simpl; lia)) as H0.
    rewrite Nat.add_0_r in H0. rewrite H0.
    rewrite IH; simpl.
    + f_equal. f_equal; [lia |]. rewrite <- !app_assoc. reflexivity.
    + intros k Hk. specialize (Hquiet (S k) ltac:(simpl; lia)).
      rewrite <- Hquiet. f_equal. lia.
    + rewrite <- Hgone. f_equal. simpl. lia.
Qed.

Lemma consume_disconnected_at request request_id elements fin final_output
    st j :
  j < length elements ->
  (forall i, i < j -> disconnected_at request (polls st + i) = false) ->
  disconnected_at request (polls st + j) = true ->
  consume request request_id elements fin final_output st
  = (Returned (inl (Response [] 499)),
     {| uuid_calls := uuid_calls st;
        polls := polls st + j + 1;
        log := log st ++ quiet_rounds (take j elements)
                 ++ [GenNext; IsDisconnected true; EngineAbort request_id] |}).
Proof.
  intros Hj Hquiet Hgone.
  destruct (lookup_lt_is_Some_2 elements j Hj) as [request_output Hlookup].
  assert (length (take j elements) = j) as Hlen by (rewrite length_take; lia).
  transitivity
    (consume request request_id
             (take j elements ++ request_output :: drop (S j) elements)
             fin final_output st).
  { by rewrite take_drop_middle. }
  rewrite consume_disconnected; rewrite ?Hlen; try assumption.
  reflexivity.
Qed.

(** The loop uses the request for its polls only. *)
Lemma consume_same_transport request request' request_id elements fin
    final_output st :
  disconnected_at request = disconnected_at request' ->
  consume request request_id elements fin final_output st
  = consume request' request_id elements fin final_output st.
Proof.
  intros Hsame. revert final_output st.
  induction elements as [| request_output rest IH]; intros final_output st;
    [reflexivity |].
  simpl. unfold mbind, M_bind, tell, is_disconnected. simpl.
  rewrite Hsame. destruct (disconnected_at request' (polls st));
    [reflexivity | apply IH].
Qed.

(** The polls below [n] all answer [False], or there is a first one that
    answers [True]. *)
Lemma scan_reports (gone : nat -> bool) n :
  (forall i, i < n -> gone i = false)
  \/ (exists j, j < n /\ gone j = true /\ forall i, i < j -> gone i = false).
Proof.
  induction n as [| n [Hquiet | (j & Hj & Hjt & Hmin)]].
  - left. intros i Hi. lia.
  - destruct (gone n) eqn:Hn.
    + right. exists n. repeat split; [lia | assumption | assumption].
    + left. intros i Hi. destruct (decide (i = n)) as [-> | Hne];
        [assumption | apply Hquiet; lia].
  - right. exists j. repeat split; [lia | assumption | assumption].
Qed.

Lemma first_report (gone : nat -> bool) n :
  (exists k, k < n /\ gone k = true) ->
  exists j, j < n /\ gone j = true /\ forall i, i < j -> gone i = false.
Proof.
  intros (k & Hk & Hgone).
  destruct (scan_reports gone n) as [Hquiet | Hfirst]; [| exact Hfirst].
  rewrite Hquiet in Hgone by assumption. discriminate.
Qed.

(** The two ways the loop can go. *)
Lemma consume_cases request request_id elements fin final_output st :
  ((forall k, k < length elements ->
              disconnected_at request (polls st + k) = false)
   /\ consume request request_id elements fin final_output st
      = (match fin with
         | StopAsyncIteration =>
             Returned (inr (match last elements with
                            | Some request_output => Some request_output
                            | None => final_output
                            end))
         | GenRaises e => Raised e
         end,
         {| uuid_calls := uuid_calls st;
            polls := polls st + length elements;
            log := log st ++ quiet_rounds elements ++ [GenNext] |}))
  \/ (exists j,
        j < length elements
        /\ consume request request_id elements fin final_output st
           = (Returned (inl (Response [] 499)),
              {| uuid_calls := uuid_calls st;
                 polls := polls st + j + 1;
                 log := log st ++ quiet_rounds (take j elements)
                          ++ [GenNext; IsDisconnected true;
                              EngineAbort request_id] |})).
Proof.
  destruct (scan_reports (fun k => disconnected_at request (polls st + k))
              (length elements)) as [Hquiet | (j & Hj & Hgone & Hbefore)].
  - left. split; [exact Hquiet | by apply consume_connected].
  - right. exists j. split; [exact Hj | by apply consume_disconnected_at].
Qed.


Lemma stream_items_spec elements fin :
  Forall2 chunk_for elements (items (stream_items elements fin))
  /\ ending (stream_items elements fin) = fin.
Proof.
  induction elements as [| request_output rest [IHitems IHend]]; simpl.
  - split; [constructor | reflexivity].
  - destruct (chunk_of_total request_output) as (dumped & Hdump & Hnul & ->).
    simpl. split; [| exact IHend].
    constructor; [| exact IHitems].
    exists dumped. repeat split; assumption.
Qed.


(** C2. Streaming mode: when the request is valid and [stream] is true,
    the handler returns a streaming response whose body has exactly one
    chunk for each element the engine's generator yields, in the same
    order, also on every prefix the consumer stops at, and ends as the
    generator ends; each chunk is the UTF-8 encoding of the JSON dump of
    the dictionary whose [text] is
    [[request_output.prompt + output.text for output in request_output.outputs]],
    which holds no NUL octet, followed by one NUL octet. *)
Theorem generate_streaming_chunks self request d prompt_arg stream
    sampling_params st :
  valid_request request d prompt_arg stream sampling_params ->
  truthy stream = true ->
  let g := engine_generate (engine self) prompt_arg sampling_params
                           (random_uuid (uuid_calls st)) in
  exists body background st',
    generate self request st
    = (Returned (StreamingResponse body background), st')
    /\ status_code (StreamingResponse body background) = 200%Z
    /\ Forall2 chunk_for (items g) (items body)
    /\ (forall n, Forall2 chunk_for (take n (items g)) (take n (items body)))
    /\ ending body = ending g.
Proof.
  intros Hvalid Hstream g.
  rewrite (generate_valid _ _ _ _ _ _ _ Hvalid), Hstream.
  eexists _, _, _. split; [reflexivity |].
  destruct (stream_items_spec (items g) (ending g)) as [Hitems Hend].
  repeat split; try assumption.
  intros n. apply Forall2_take, Hitems.
Qed.

(** C3. Non-streaming mode: every round of the loop asks for the next
    element and then polls [is_disconnected()] before it keeps the element
    or asks for another.  If some poll made during the consumption answers
    true, the rounds before the first such poll are the only ones that run,
    the handler calls the engine's [abort] with the id it submitted, once
    and as its last call, and returns the response with status 499 and an
    empty body. *)
Theorem generate_blocking_disconnect self request d prompt_arg stream
    sampling_params st :
  valid_request request d prompt_arg stream sampling_params ->
  truthy stream = false ->
  let request_id := random_uuid (uuid_calls st) in
  let g := engine_generate (engine self) prompt_arg sampling_params request_id in
  (exists k, k < length (items g)
             /\ disconnected_at request (polls st + k) = true) ->
  exists j st',
    j < length (items g)
    /\ disconnected_at request (polls st + j) = true
    /\ (forall i, i < j -> disconnected_at request (polls st + i) = false)
    /\ generate self request st = (Returned (Response [] 499), st')
    /\ polls st' = polls st + j + 1
    /\ log st' = log st
                 ++ [EngineGenerate prompt_arg sampling_params request_id]
                 ++ quiet_rounds (take j (items g))
                 ++ [GenNext; IsDisconnected true; EngineAbort request_id].
Proof.
  intros Hvalid Hstream request_id g Hreport.
  destruct (first_report (fun k => disconnected_at request (polls st + k))
              (length (items g)) Hreport) as (j & Hj & Hgone & Hquiet).
  exists j.
  rewrite (generate_valid _ _ _ _ _ _ _ Hvalid), Hstream.
  rewrite (consume_disconnected_at _ _ _ _ _ _ j) by assumption.
  eexists. repeat split; try assumption; try reflexivity.
  simpl. rewrite <- !app_assoc. reflexivity.
Qed.

(** C6. Non-streaming mode: when the engine's generator stops without
    having yielded any element, no poll is made and the handler does not
    return a response: the assertion of line 72 fails and
    [AssertionError] leaves the handler. *)
Theorem generate_blocking_empty self request d prompt_arg stream
    sampling_params st :
  valid_request request d prompt_arg stream sampling_params ->
  truthy stream = false ->
  engine_generate (engine self) prompt_arg sampling_params
                  (random_uuid (uuid_calls st))
  = Gen [] StopAsyncIteration ->
  exists st',
    generate self request st = (Raised AssertionError, st')
    /\ polls st' = polls st
    /\ log st' = log st
                 ++ [EngineGenerate prompt_arg sampling_params
                                    (random_uuid (uuid_calls st));
                     GenNext].
Proof.
  intros Hvalid Hstream Hgen.
  rewrite (generate_valid _ _ _ _ _ _ _ Hvalid), Hstream, Hgen. simpl.
  unfold mbind, M_bind, tell. simpl.
  eexists. repeat split. simpl. rewrite <- app_assoc. reflexivity.
Qed.

(** *** Before the submission *)

Lemma generate_pop_fails self request body e st :
  json_result request = Returned body ->
  dict_pop body (py "prompt") = Raised e ->
  generate self request st = (Raised e, st).
Proof.
  intros Hjson Hpop.
  unfold generate, request_json, lift, mbind, M_bind.
  rewrite Hjson, Hpop. reflexivity.
Qed.

Lemma generate_rejected self request d prompt_arg e st :
  json_result request = Returned (PDict d) ->
  d !! py "prompt" = Some prompt_arg ->
  SamplingParams_init (delete (py "stream") (delete (py "prompt") d))
  = Raised e ->
  generate self request st = (Raised e, st).
Proof.
  intros Hjson Hprompt Hparams.
  unfold generate, request_json, lift, mbind, M_bind, dict_pop,
    dict_pop_default.
  rewrite Hjson, Hprompt, Hparams. reflexivity.
Qed.

Lemma remaining_keys d (k : pystr) :
  delete (py "stream") (delete (py "prompt") d) !! k
  = if decide (k = py "prompt" \/ k = py "stream") then None else d !! k.
Proof.
  destruct (decide (k = py "prompt" \/ k = py "stream")) as [[-> | ->] | Hne].
  - rewrite lookup_delete_ne by (symmetry; apply prompt_stream_keys).
    apply lookup_delete_eq.
  - apply lookup_delete_eq.
  - rewrite !lookup_delete_ne by (intros <-; apply Hne; auto). reflexivity.
Qed.

Lemma remaining_insert d (key : pystr) (x : pyval) :
  key = py "prompt" \/ key = py "stream" ->
  delete (py "stream") (delete (py "prompt") (<[key := x]> d))
  = delete (py "stream") (delete (py "prompt") d).
Proof.
  intros Hkey. apply map_eq. intros k. rewrite !remaining_keys.
  destruct (decide (k = py "prompt" \/ k = py "stream")) as [| Hne];
    [reflexivity |].
  apply lookup_insert_ne. intros ->. apply Hne, Hkey.
Qed.


(** C7, amended. The constructor of the sampling parameters is called on
    the body without exactly the keys [prompt] and [stream], every other
    key with its value.  When it rejects them, the exception it raised
    leaves the handler as it is, and nothing has been called: the state,
    and with it the log of the engine calls, is unchanged. *)
Theorem generate_rejected_sampling_params self request d prompt_arg e st :
  json_result request = Returned (PDict d) ->
  d !! py "prompt" = Some prompt_arg ->
  SamplingParams_init (delete (py "stream") (delete (py "prompt") d))
  = Raised e ->
  generate self request st = (Raised e, st)
  /\ (forall k : pystr,
        delete (py "stream") (delete (py "prompt") d) !! k
        = if decide (k = py "prompt" \/ k = py "stream") then None
          else d !! k).
Proof.
  intros Hjson Hprompt Hparams. split.
  - by apply generate_rejected with d prompt_arg.
  - apply remaining_keys.
Qed.

(** *** The [stream] key *)

Lemma truthy_false_iff (v : pyval) : truthy v = false <-> falsy_value v.
Proof.
  unfold falsy_value. split.
  - destruct v as [| b | z | f | s | l | m]; simpl; intros H.
    + by left.
    + right; left. by rewrite H.
    + right; right; left. apply negb_false_iff, Z.eqb_eq in H. by rewrite H.
    + right; right; right; left. destruct f; try discriminate. eauto.
    + do 4 right; left. by destruct s.
    + do 5 right; left. by destruct l.
    + do 6 right. destruct (map_to_list m) eqn:Hm; [| discriminate].
      apply map_to_list_empty_iff in Hm. by rewrite Hm.
  - intros [-> | [-> | [-> | [[sign ->] | [-> | [-> | ->]]]]]]; reflexivity.
Qed.

(** C8, amended. For a body that has a [prompt] and sampling parameters
    the constructor accepts, whatever the value of [stream], [False] when
    the key is absent: when Python's truth test of the value is true, the
    handler submits the request and returns the streaming response at
    once; when it is false, that is for [None], [False], the zeros and the
    empty string, list and dictionary, the handler submits the request and
    runs the non-streaming case of lines 63-76, which never returns a
    streaming response.  No value of [stream] makes the request fail. *)
Theorem generate_stream_mode self request d prompt_arg sampling_params st :
  json_result request = Returned (PDict d) ->
  d !! py "prompt" = Some prompt_arg ->
  SamplingParams_init (delete (py "stream") (delete (py "prompt") d))
  = Returned sampling_params ->
  let stream := default (PBool false) (d !! py "stream") in
  let request_id := random_uuid (uuid_calls st) in
  let g := engine_generate (engine self) prompt_arg sampling_params request_id in
  (truthy stream = false <-> falsy_value stream)
  /\ if truthy stream
     then generate self request st
          = (Returned (StreamingResponse (stream_results g)
                                         [abort_request request_id]),
             submitted st prompt_arg sampling_params)
     else generate self request st
          = non_streaming request request_id g
                          (submitted st prompt_arg sampling_params)
          /\ match fst (generate self request st) with
             | Returned (StreamingResponse _ _) => False
             | _ => True
             end.
Proof.
  intros Hjson Hprompt Hparams stream request_id g.
  split; [apply truthy_false_iff |].
  assert (valid_request request d prompt_arg stream sampling_params)
    as Hvalid by done.
  assert (generate self request st
          = if truthy stream
            then (Returned (StreamingResponse (stream_results g)
                                              [abort_request request_id]),
                  submitted st prompt_arg sampling_params)
            else non_streaming request request_id g
                               (submitted st prompt_arg sampling_params))
    as Hrun.
  { unfold generate, request_json, lift, mbind, M_bind, dict_pop,
      dict_pop_default.
    rewrite Hjson, Hprompt.
    rewrite lookup_delete_ne by apply prompt_stream_keys.
    fold stream. rewrite Hparams. simpl. fold request_id. fold g.
    by destruct (truthy stream). }
  destruct (truthy stream) eqn:Htruthy; [exact Hrun |].
  split; [exact Hrun |].
  rewrite (generate_valid _ _ _ _ _ _ _ Hvalid), Htruthy.
  fold request_id. fold g.
  destruct (consume_cases request request_id (items g) (ending g) None
              (submitted st prompt_arg sampling_params))
    as [[_ ->] | (j & _ & ->)]; [| exact I].
  destruct (ending g); [| exact I].
  destruct (last (items g)) as [final_output |]; [| exact I].
  simpl. by destruct (render _).
Qed.

(** *** Where the prefix of the text entries comes from *)

(** What the loop returns depends on the state through the number of polls
    made so far only. *)
Lemma consume_outcome request request_id elements fin final_output st st' :
  polls st = polls st' ->
  fst (consume request request_id elements fin final_output st)
  = fst (consume request request_id elements fin final_output st').
Proof.
  revert final_output st st'.
  induction elements as [| request_output rest IH];
    intros final_output st st' Hpolls; simpl;
    unfold mbind, M_bind, tell, is_disconnected; simpl.
  - destruct fin; reflexivity.
  - rewrite Hpolls. destruct (disconnected_at request (polls st'));
      [reflexivity |].
    apply IH. reflexivity.
Qed.

Lemma valid_request_other_prompt request d prompt_arg prompt_arg' stream
    sampling_params :
  valid_request request d prompt_arg stream sampling_params ->
  valid_request
    {| json_result := Returned (PDict (<[py "prompt" := prompt_arg']> d));
       disconnected_at := disconnected_at request |}
    (<[py "prompt" := prompt_arg']> d) prompt_arg' stream sampling_params.
Proof.
  intros (_ & _ & Hstream & Hparams). repeat split.
  - by rewrite lookup_insert_eq.
  - rewrite lookup_insert_ne by apply prompt_stream_keys. exact Hstream.
  - rewrite remaining_insert by auto. exact Hparams.
Qed.

(** C10. The text entries of the response are prefixed with the [prompt]
    field of the engine's element, not with the [prompt] of the body: in
    non-streaming mode, with the client connected and a generator that
    stops, the response, which is returned when its body can be rendered,
    has the [prompt] of the last element as prefix; in streaming mode, each
    chunk has the [prompt] of its own element.  A request that differs in
    the [prompt] of its body only gets the same response, or the same
    exception, whenever the engine yields the same elements for it. *)
Theorem response_prompt_from_engine self request d prompt_arg prompt_arg'
    stream sampling_params st :
  valid_request request d prompt_arg stream sampling_params ->
  let request_id := random_uuid (uuid_calls st) in
  let g := engine_generate (engine self) prompt_arg sampling_params request_id in
  engine_generate (engine self) prompt_arg' sampling_params request_id = g ->
  ending g = StopAsyncIteration ->
  (forall k, disconnected_at request k = false) ->
  fst (generate self
         {| json_result := Returned (PDict (<[py "prompt" := prompt_arg']> d));
            disconnected_at := disconnected_at request |} st)
  = fst (generate self request st)
  /\ if truthy stream
     then exists body background,
            fst (generate self request st)
            = Returned (StreamingResponse body background)
            /\ Forall2 chunk_for (items g) (items body)
     else fst (generate self request st)
          = match last (items g) with
            | Some last_element =>
                match render (Ret (map (fun o => prompt last_element ++ text o)
                                       (outputs last_element))) with
                | Some _ =>
                    Returned (JSONResponse
                                (Ret (map (fun o => prompt last_element
                                                    ++ text o)
                                          (outputs last_element))))
                | None => Raised UnicodeEncodeError
                end
            | None => Raised AssertionError
            end.
Proof.
  intros Hvalid request_id g Hsame Hend Hquiet.
  rewrite (generate_valid _ _ _ _ _ _ _ Hvalid).
  rewrite (generate_valid _ _ _ _ _ _ _
             (valid_request_other_prompt _ _ _ prompt_arg' _ _ Hvalid)).
  fold request_id. rewrite Hsame. fold g.
  destruct (truthy stream).
  - split; [reflexivity |]. eexists _, _. split; [reflexivity |].
    apply stream_items_spec.
  - split.
    + rewrite (consume_same_transport _ request) by reflexivity.
      pose proof (consume_outcome request request_id (items g) (ending g)
                    None (submitted st prompt_arg' sampling_params)
                    (submitted st prompt_arg sampling_params) eq_refl) as Hfst.
      destruct (consume _ _ _ _ _ (submitted st prompt_arg' _))
        as [o1 st1], (consume _ _ _ _ _ (submitted st prompt_arg _))
        as [o2 st2].
      simpl in Hfst. subst o2.
      destruct o1 as [e | [early | [final_output |]]]; reflexivity.
    + rewrite consume_connected by (intros; apply Hquiet).
      rewrite Hend. destruct (last (items g)); reflexivity.
Qed.

(** *** Cancellation *)

Lemma deliver_spec accepts (chunks : list bytes) fin st :
  deliver accepts chunks fin st
  = (Returned (take accepts chunks,
               if decide (accepts < length chunks) then ClientAbort
               else end_reason fin),
     {| uuid_calls := uuid_calls st; polls := polls st;
        log := log st
                 ++ replicate (if decide (accepts < length chunks)
                               then accepts else S (length chunks))
                              GenNext |}).
Proof.
  revert accepts st.
  induction chunks as [| c rest IH]; intros accepts st.
  - simpl. unfold mbind, M_bind, tell. simpl.
    rewrite take_nil. destruct (decide (accepts < 0)); [lia | reflexivity].
  - destruct accepts as [| k]; simpl.
    + unfold mret, M_ret. rewrite app_nil_r. destruct st; reflexivity.
    + unfold mbind, M_bind, tell. simpl. rewrite IH. simpl.
      destruct (decide (k < length rest)), (decide (S k < S (length rest)));
        try lia; simpl; rewrite <- app_assoc; reflexivity.
Qed.

Lemma repeat_abort_request (request_id : RequestId) n st :
  repeat_task n (abort_request request_id) st
  = (Returned tt,
     {| uuid_calls := uuid_calls st; polls := polls st;
        log := log st ++ replicate n (EngineAbort request_id) |}).
Proof.
  revert st. induction n as [| n IH]; intros st; simpl.
  - unfold mret, M_ret. rewrite app_nil_r. destruct st; reflexivity.
  - unfold mbind, M_bind, abort_request, engine_abort, tell. rewrite IH.
    simpl. rewrite <- app_assoc. reflexivity.
Qed.

Lemma spec_abort_state (request_id : RequestId) (in_flight : gset RequestId) :
  spec_abort request_id in_flight = (Returned tt, in_flight ∖ {[request_id]}).
Proof.
  unfold spec_abort. destruct (decide (request_id ∈ in_flight));
    [reflexivity |].
  f_equal. set_solver.
Qed.

Lemma engine_replay_aborts (request_id : RequestId) (n : nat)
    (in_flight : gset RequestId) :
  engine_replay (replicate n (@EngineAbort SamplingParams request_id)) in_flight
  = (Returned tt,
     match n with O => in_flight | S _ => in_flight ∖ {[request_id]} end).
Proof.
  revert in_flight. induction n as [| n IH]; intros in_flight; [reflexivity |].
  simpl. rewrite spec_abort_state, IH.
  destruct n; [reflexivity |]. f_equal. set_solver.
Qed.

(** C5. Streaming mode: the response carries [abort_request], bound to
    the id submitted to the engine, as its one background task.  Whatever
    closes the transport (the generator stopped, the generator failed, the
    client left after [accepts] chunks), the chunks sent are the first
    [accepts] of the body at most, none after the close, and the last call
    made is the engine's [abort] with that id. *)
Theorem streaming_abort_on_close self request d prompt_arg stream
    sampling_params st accepts :
  valid_request request d prompt_arg stream sampling_params ->
  truthy stream = true ->
  let request_id := random_uuid (uuid_calls st) in
  let g := engine_generate (engine self) prompt_arg sampling_params request_id in
  exists body st1 sent why st2 pulls,
    generate self request st
    = (Returned (StreamingResponse body [abort_request request_id]), st1)
    /\ log st1 = log st ++ [EngineGenerate prompt_arg sampling_params request_id]
    /\ serve_streaming (StreamingResponse body [abort_request request_id])
                       accepts st1
       = (Returned (sent, why), st2)
    /\ sent = take accepts (items body)
    /\ why = (if decide (accepts < length (items g)) then ClientAbort
              else end_reason (ending g))
    /\ log st2 = log st1 ++ replicate pulls GenNext ++ [EngineAbort request_id].
Proof.
  intros Hvalid Hstream request_id g.
  rewrite (generate_valid _ _ _ _ _ _ _ Hvalid), Hstream.
  fold request_id. fold g.
  destruct (stream_items_spec (items g) (ending g)) as [Hitems Hend].
  apply Forall2_length in Hitems.
  eexists _, _, _, _, _, _. split; [reflexivity |].
  split; [reflexivity |].
  unfold serve_streaming, mbind, M_bind. rewrite deliver_spec. simpl.
  unfold mbind, M_bind, abort_request, engine_abort, tell. simpl.
  split; [reflexivity |]. split; [reflexivity |].
  unfold stream_results. rewrite Hend, <- Hitems.
  split; [reflexivity |].
  rewrite <- !app_assoc. reflexivity.
Qed.

(** C9. Cancellation any number of times: [abort_request] awaited [n]
    times returns normally each time and makes [n] calls of the engine's
    [abort] with the id.  On the engine these calls never raise; they
    leave its state as it was when [n] is zero, and as one call leaves it
    otherwise; on a state where the request is no longer in flight
    (completed, or already cancelled) they change nothing. *)
Theorem abort_request_idempotent (request_id : RequestId) (n : nat) st
    (in_flight : gset RequestId) :
  let calls := replicate n (@EngineAbort SamplingParams request_id) in
  repeat_task n (abort_request request_id) st
  = (Returned tt,
     {| uuid_calls := uuid_calls st; polls := polls st;
        log := log st ++ calls |})
  /\ engine_replay calls in_flight
     = (Returned tt,
        match n with O => in_flight | S _ => in_flight ∖ {[request_id]} end)
  /\ engine_replay (EngineAbort request_id :: calls) in_flight
     = spec_abort request_id in_flight
  /\ engine_replay calls (in_flight ∖ {[request_id]})
     = (Returned tt, in_flight ∖ {[request_id]}).
Proof.
  intros calls. split; [apply repeat_abort_request |].
  split; [apply engine_replay_aborts |]. split.
  - change (EngineAbort request_id :: calls)
      with (replicate (S n) (@EngineAbort SamplingParams request_id)).
    by rewrite engine_replay_aborts, spec_abort_state.
  - unfold calls. rewrite engine_replay_aborts.
    destruct n; [reflexivity |]. f_equal. set_solver.
Qed.

End Properties.

(** ** The handler on concrete requests *)

Ltac evaluate := repeat split; vm_compute; reflexivity.




(** The body of the response of scenario A. *)
Example scenario_A_body :
  option_map (map Byte.to_N)
             (render (Ret (text_outputs Demo.hello_world)))
  = Some (py "{" ++ [34%N] ++ py "text" ++ [34%N] ++ py ":[" ++ [34%N]
            ++ py "Hello world" ++ [34%N] ++ py "]}").
Proof. vm_compute. reflexivity. Qed.

Example scenario_A :
  fst (Demo.run (Gen [Demo.hello_world] StopAsyncIteration) Demo.dict_A
                Demo.connected)
  = Returned (JSONResponse (Ret [py "Hello world"])).
Proof. vm_compute. reflexivity. Qed.

(** Scenario B of the spec: two chunks, in the order of the outputs. *)
Lemma generate_streaming_chunks_witness :
  exists body background st',
    Demo.run Demo.two_steps Demo.dict_B Demo.connected
    = (Returned (StreamingResponse body background), st')
    /\ status_code (StreamingResponse body background) = 200%Z
    /\ Forall2 chunk_for (items Demo.two_steps) (items body)
    /\ (forall n, Forall2 chunk_for (take n (items Demo.two_steps))
                          (take n (items body)))
    /\ ending body = ending Demo.two_steps.
Proof.
  apply (generate_streaming_chunks Demo.SamplingParams_init Demo.random_uuid
           (Demo.scripted Demo.two_steps)
           (Demo.request_of (PDict Demo.dict_B) Demo.connected) Demo.dict_B
           (PStr (py "Hello")) (PBool true) Demo.kw_A Demo.st0).
  - evaluate.
  - reflexivity.
Defined.

Example scenario_B :
  exists background,
    fst (Demo.run Demo.two_steps Demo.dict_B Demo.connected)
    = Returned
        (StreamingResponse
           (Gen [[x7b; x22; x74; x65; x78; x74; x22; x3a; x20; x5b; x22;
                  x48; x65; x6c; x6c; x6f; x20; x77; x6f; x72; x22; x5d;
                  x7d; x00];
                 [x7b; x22; x74; x65; x78; x74; x22; x3a; x20; x5b; x22;
                  x48; x65; x6c; x6c; x6f; x20; x77; x6f; x72; x6c; x64;
                  x22; x5d; x7d; x00]]
                StopAsyncIteration)
           background).
Proof. eexists. reflexivity. Qed.

(** The client leaves while the second element is consumed. *)
Lemma generate_blocking_disconnect_witness :
  exists j st',
    j < length (items Demo.two_steps)
    /\ Demo.gone_at_second (polls Demo.st0 + j) = true
    /\ (forall i, i < j -> Demo.gone_at_second (polls Demo.st0 + i) = false)
    /\ Demo.run Demo.two_steps Demo.dict_A Demo.gone_at_second
       = (Returned (Response [] 499), st')
    /\ polls st' = polls Demo.st0 + j + 1
    /\ log st' = log Demo.st0
                 ++ [EngineGenerate (PStr (py "Hello")) Demo.kw_A
                                    (Demo.random_uuid 0)]
                 ++ quiet_rounds (take j (items Demo.two_steps))
                 ++ [GenNext; IsDisconnected true;
                     EngineAbort (Demo.random_uuid 0)].
Proof.
  apply (generate_blocking_disconnect Demo.SamplingParams_init
           Demo.random_uuid (Demo.scripted Demo.two_steps)
           (Demo.request_of (PDict Demo.dict_A) Demo.gone_at_second)
           Demo.dict_A (PStr (py "Hello")) (PBool false) Demo.kw_A Demo.st0).
  - evaluate.
  - reflexivity.
  - exists 1. split; [simpl; lia | reflexivity].
Defined.

Example disconnect_at_second :
  Demo.run Demo.two_steps Demo.dict_A Demo.gone_at_second
  = (Returned (Response [] 499),
     {| uuid_calls := 1; polls := 2;
        log := [EngineGenerate (PStr (py "Hello")) Demo.kw_A
                               (Demo.random_uuid 0);
                GenNext; IsDisconnected false;
                GenNext; IsDisconnected true;
                EngineAbort (Demo.random_uuid 0)] |}).
Proof. vm_compute. reflexivity. Qed.

(** An engine that yields nothing. *)
Lemma generate_blocking_empty_witness :
  exists st',
    Demo.run Demo.nothing Demo.dict_A Demo.connected
    = (Raised AssertionError, st')
    /\ polls st' = polls Demo.st0
    /\ log st' = log Demo.st0
                 ++ [EngineGenerate (PStr (py "Hello")) Demo.kw_A
                                    (Demo.random_uuid 0);
                     GenNext].
Proof.
  apply (generate_blocking_empty Demo.SamplingParams_init Demo.random_uuid
           (Demo.scripted Demo.nothing)
           (Demo.request_of (PDict Demo.dict_A) Demo.connected) Demo.dict_A
           (PStr (py "Hello")) (PBool false) Demo.kw_A Demo.st0).
  - evaluate.
  - reflexivity.
  - reflexivity.
Defined.



(** A temperature of -1. *)
Lemma generate_rejected_sampling_params_witness :
  Demo.run Demo.two_steps Demo.dict_cold Demo.connected
  = (Raised (ValueError "temperature must be non-negative"), Demo.st0)
  /\ (forall k : pystr,
        delete (py "stream") (delete (py "prompt") Demo.dict_cold) !! k
        = if decide (k = py "prompt" \/ k = py "stream") then None
          else Demo.dict_cold !! k).
Proof.
  apply (generate_rejected_sampling_params Demo.SamplingParams_init
           Demo.random_uuid (Demo.scripted Demo.two_steps)
           (Demo.request_of (PDict Demo.dict_cold) Demo.connected)
           Demo.dict_cold (PStr (py "Hello"))).
  - reflexivity.
  - vm_compute. reflexivity.
  - vm_compute. reflexivity.
Defined.

(** C7, counterexample. The body [{prompt: Hello, temperature: -1}]: the
    constructor rejects the temperature and the handler raises its
    [ValueError]; it returns no response, so none with a 4xx status. *)
Lemma rejected_sampling_params_no_4xx :
  Demo.SamplingParams_init
    (delete (py "stream") (delete (py "prompt") Demo.dict_cold))
  = Raised (ValueError "temperature must be non-negative")
  /\ ~ exists r st',
         Demo.run Demo.two_steps Demo.dict_cold Demo.connected
         = (Returned r, st')
         /\ (400 <= status_code r <= 499)%Z.
Proof.
  split; [vm_compute; reflexivity |].
  intros (r & st' & Hrun & _). vm_compute in Hrun. discriminate.
Qed.

(** C8, counterexample. The body [{prompt: Hello, stream: [x]}]: the value
    of [stream] is a list, not a boolean, and the request does not fail;
    the handler returns the streaming response. *)
Lemma list_stream_is_accepted :
  Demo.dict_stream_list !! py "stream" = Some (PList [PStr (py "x")])
  /\ fst (Demo.run Demo.two_steps Demo.dict_stream_list Demo.connected)
     = Returned (StreamingResponse (stream_results Demo.two_steps)
                                   [abort_request (Demo.random_uuid 0)]).
Proof. split; vm_compute; reflexivity. Qed.

(** A [stream] that is a list with one item: true for Python, hence the
    streaming mode. *)
Lemma generate_stream_mode_witness :
  (truthy (PList [PStr (py "x")]) = false
   <-> falsy_value (PList [PStr (py "x")]))
  /\ Demo.run Demo.two_steps Demo.dict_stream_list Demo.connected
     = (Returned (StreamingResponse (stream_results Demo.two_steps)
                                    [abort_request (Demo.random_uuid 0)]),
        submitted Demo.random_uuid Demo.st0 (PStr (py "Hello")) ∅).
Proof.
  apply (generate_stream_mode Demo.SamplingParams_init Demo.random_uuid
           (Demo.scripted Demo.two_steps)
           (Demo.request_of (PDict Demo.dict_stream_list) Demo.connected)
           Demo.dict_stream_list (PStr (py "Hello")) ∅ Demo.st0).
  - reflexivity.
  - vm_compute. reflexivity.
  - vm_compute. reflexivity.
Defined.

(** A [stream] that is [None]: the non-streaming mode. *)
Example null_stream_is_blocking :
  fst (generate Demo.SamplingParams_init Demo.random_uuid
         (Demo.scripted Demo.two_steps)
         (Demo.request_of
            (PDict (<[py "stream" := PNone]> Demo.dict_A)) Demo.connected)
         Demo.st0)
  = Returned (JSONResponse (Ret [py "Hello world"])).
Proof. vm_compute. reflexivity. Qed.

(** The truth values of some [stream] values. *)
Example truthy_samples :
  truthy PNone = false /\ truthy (PInt 0) = false
  /\ truthy (PFloat (S754_zero true)) = false /\ truthy (PStr []) = false
  /\ truthy (PList []) = false /\ truthy (PDict ∅) = false
  /\ truthy (PStr (py "false")) = true /\ truthy (PInt 2) = true
  /\ truthy (PFloat S754_nan) = true /\ truthy (PList [PBool false]) = true.
Proof. repeat split; reflexivity. Qed.

(** Scenario C of the spec: the client leaves after one chunk. *)
Lemma streaming_abort_on_close_witness :
  exists body st1 sent why st2 pulls,
    Demo.run Demo.two_steps Demo.dict_B Demo.connected
    = (Returned (StreamingResponse body
                                   [abort_request (Demo.random_uuid 0)]), st1)
    /\ log st1 = log Demo.st0
                 ++ [EngineGenerate (PStr (py "Hello")) Demo.kw_A
                                    (Demo.random_uuid 0)]
    /\ serve_streaming
         (StreamingResponse body [abort_request (Demo.random_uuid 0)]) 1 st1
       = (Returned (sent, why), st2)
    /\ sent = take 1 (items body)
    /\ why = (if decide (1 < length (items Demo.two_steps)) then ClientAbort
              else end_reason (ending Demo.two_steps))
    /\ log st2 = log st1 ++ replicate pulls GenNext
                 ++ [EngineAbort (Demo.random_uuid 0)].
Proof.
  apply (streaming_abort_on_close Demo.SamplingParams_init Demo.random_uuid
           (Demo.scripted Demo.two_steps)
           (Demo.request_of (PDict Demo.dict_B) Demo.connected) Demo.dict_B
           (PStr (py "Hello")) (PBool true) Demo.kw_A Demo.st0 1).
  - evaluate.
  - reflexivity.
Defined.

Example scenario_C :
  serve_streaming
    (StreamingResponse (stream_results Demo.two_steps)
                       [abort_request (Demo.random_uuid 0)])
    1 Demo.st0
  = (Returned ([[x7b; x22; x74; x65; x78; x74; x22; x3a; x20; x5b; x22;
                 x48; x65; x6c; x6c; x6f; x20; x77; x6f; x72; x22; x5d;
                 x7d; x00]],
               ClientAbort),
     {| uuid_calls := 0; polls := 0;
        log := [GenNext; @EngineAbort (gmap pystr pyval)
                           (Demo.random_uuid 0)] |}).
Proof. vm_compute. reflexivity. Qed.

(** Three aborts of a request in flight beside another one. *)
Example three_aborts :
  engine_replay
    (replicate 3 (@EngineAbort (gmap pystr pyval) (py "id0")))
    ({[py "id0"; py "id1"]} : gset RequestId)
  = (Returned tt, {[py "id1"]}).
Proof. vm_compute. reflexivity. Qed.

(** The body says Hello, the engine reports Goodbye. *)
Lemma response_prompt_from_engine_witness :
  fst (generate Demo.SamplingParams_init Demo.random_uuid
         (Demo.scripted (Gen [Demo.goodbye_world] StopAsyncIteration))
         {| json_result :=
              Returned (PDict (<[py "prompt" := PInt 5]> Demo.dict_A));
            disconnected_at := Demo.connected |}
         Demo.st0)
  = fst (Demo.run (Gen [Demo.goodbye_world] StopAsyncIteration) Demo.dict_A
                  Demo.connected)
  /\ fst (Demo.run (Gen [Demo.goodbye_world] StopAsyncIteration) Demo.dict_A
                   Demo.connected)
     = Returned (JSONResponse
                   (Ret (map (fun o => prompt Demo.goodbye_world ++ text o)
                             (outputs Demo.goodbye_world)))).
Proof.
  apply (response_prompt_from_engine Demo.SamplingParams_init Demo.random_uuid
           (Demo.scripted (Gen [Demo.goodbye_world] StopAsyncIteration))
           (Demo.request_of (PDict Demo.dict_A) Demo.connected) Demo.dict_A
           (PStr (py "Hello")) (PInt 5) (PBool false) Demo.kw_A Demo.st0).
  - evaluate.
  - reflexivity.
  - reflexivity.
  - intros k. reflexivity.
Defined.

Example engine_prompt_wins :
  fst (Demo.run (Gen [Demo.goodbye_world] StopAsyncIteration) Demo.dict_A
                Demo.connected)
  = Returned (JSONResponse (Ret [py "Goodbye world"])).
Proof. vm_compute. reflexivity. Qed.

(** * Further properties of the handler *)

Section Runs.

Context {SamplingParams : Type}.
Variable SamplingParams_init : gmap pystr pyval -> outcome SamplingParams.
Variable random_uuid : nat -> RequestId.

Implicit Types (self : @LanguageModel SamplingParams) (request : Request).
Implicit Types (st : @state SamplingParams) (d : gmap pystr pyval).

Local Abbreviation generate := (generate SamplingParams_init random_uuid).
Local Abbreviation valid_request := (valid_request SamplingParams_init).
Local Abbreviation submitted := (submitted random_uuid).

(** ** How a run of the handler can go *)

Lemma generate_json_fails self request e st :
  json_result request = Raised e ->
  generate self request st = (Raised e, st).
Proof.
  intros Hjson. unfold generate, request_json, lift, mbind, M_bind.
  by rewrite Hjson.
Qed.

(** A request is rejected with nothing called, or it is valid. *)
Lemma rejected_or_valid self request st :
  (exists e, generate self request st = (Raised e, st))
  \/ (exists d prompt_arg stream sampling_params,
        valid_request request d prompt_arg stream sampling_params).
Proof.
  destruct (json_result request) as [e | body] eqn:Hjson.
  { left. exists e. by apply generate_json_fails. }
  destruct (dict_pop body (py "prompt")) as [e | [v rest]] eqn:Hpop.
  { left. exists e. by apply generate_pop_fails with body. }
  destruct body as [| | | | | | d]; try discriminate.
  simpl in Hpop. destruct (d !! py "prompt") as [prompt_arg |] eqn:Hprompt;
    [| discriminate].
  destruct (SamplingParams_init
              (delete (py "stream") (delete (py "prompt") d)))
    as [e | sampling_params] eqn:Hparams.
  - left. exists e. by apply generate_rejected with d prompt_arg.
  - right. exists d, prompt_arg, (default (PBool false) (d !! py "stream")),
      sampling_params. done.
Qed.

Lemma aborted_ids_app (l1 l2 : list (@event SamplingParams)) :
  aborted_ids (l1 ++ l2) = aborted_ids l1 ++ aborted_ids l2.
Proof. apply omap_app. Qed.

Lemma submitted_ids_app (l1 l2 : list (@event SamplingParams)) :
  submitted_ids (l1 ++ l2) = submitted_ids l1 ++ submitted_ids l2.
Proof. apply omap_app. Qed.

Lemma aborted_ids_quiet_rounds {A} (elements : list A) :
  aborted_ids (@quiet_rounds SamplingParams A elements) = [].
Proof. induction elements; [reflexivity | exact IHelements]. Qed.

Lemma submitted_ids_quiet_rounds {A} (elements : list A) :
  submitted_ids (@quiet_rounds SamplingParams A elements) = [].
Proof. induction elements; [reflexivity | exact IHelements]. Qed.

(** What a run adds to the log: nothing, when the request is rejected;
    otherwise the submission, with the id drawn in this run, followed by
    calls among which there is no other submission, and one [abort], with
    that id, exactly when the response is the 499 one. *)
Lemma generate_trace self request st :
  let run := generate self request st in
  let request_id := random_uuid (uuid_calls st) in
  (snd run = st /\ exists e, fst run = Raised e)
  \/ (uuid_calls (snd run) = S (uuid_calls st)
      /\ exists prompt_arg sampling_params rest,
           log (snd run)
           = log st ++ EngineGenerate prompt_arg sampling_params request_id
                       :: rest
           /\ submitted_ids rest = []
           /\ ((aborted_ids rest = []
                /\ match fst run with
                   | Returned (Response _ _) => False
                   | _ => True
                   end)
               \/ (aborted_ids rest = [request_id]
                   /\ fst run = Returned (Response [] 499)))).
Proof.
  intros run request_id. subst run.
  destruct (rejected_or_valid self request st)
    as [[e He] | (d & prompt_arg & stream & sampling_params & Hvalid)].
  { left. rewrite He. split; [reflexivity | by exists e]. }
  right. rewrite (generate_valid _ _ _ _ _ _ _ _ _ Hvalid).
  fold request_id.
  set (g := engine_generate (engine self) prompt_arg sampling_params request_id).
  destruct (truthy stream).
  { split; [reflexivity |]. exists prompt_arg, sampling_params, [].
    repeat split. left. done. }
  destruct (consume_cases request request_id (items g) (ending g) None
              (submitted st prompt_arg sampling_params))
    as [[_ Hrun] | (j & _ & Hrun)]; rewrite Hrun; clear Hrun.
  - assert (submitted_ids
              (@quiet_rounds SamplingParams _ (items g) ++ [GenNext]) = [])
      as Hsub
      by (rewrite submitted_ids_app, submitted_ids_quiet_rounds; reflexivity).
    assert (aborted_ids
              (@quiet_rounds SamplingParams _ (items g) ++ [GenNext]) = [])
      as Habort
      by (rewrite aborted_ids_app, aborted_ids_quiet_rounds; reflexivity).
    destruct (ending g) as [| e];
      [destruct (last (items g)) as [final_output |] |]; simpl;
      (split; [reflexivity |]);
      exists prompt_arg, sampling_params, (quiet_rounds (items g) ++ [GenNext]);
      (split; [by rewrite <- app_assoc |]);
      (split; [exact Hsub |]); left;
      (split; [exact Habort | try destruct (render _); exact I]).
  - simpl. split; [reflexivity |].
    exists prompt_arg, sampling_params,
      (quiet_rounds (take j (items g))
         ++ [GenNext; IsDisconnected true; EngineAbort request_id]).
    split; [by rewrite <- app_assoc |].
    rewrite submitted_ids_app, aborted_ids_app, submitted_ids_quiet_rounds,
      aborted_ids_quiet_rounds.
    split; [reflexivity |]. right. split; reflexivity.
Qed.

(** The loop reads the transport at the polls it makes only. *)
Lemma consume_agree request request' request_id elements fin final_output st :
  (forall k, k < length elements ->
             disconnected_at request' (polls st + k)
             = disconnected_at request (polls st + k)) ->
  consume request' request_id elements fin final_output st
  = consume request request_id elements fin final_output st.
Proof.
  revert final_output st.
  induction elements as [| request_output rest IH];
    intros final_output st Hagree; [reflexivity |].
  simpl. unfold mbind, M_bind, tell, is_disconnected. simpl.
  pose proof (Hagree 0 ltac:(simpl; lia)) as H0.
  rewrite Nat.add_0_r in H0. rewrite H0.
  destruct (disconnected_at request (polls st)); [reflexivity |].
  apply IH. intros k Hk. simpl.
  specialize (Hagree (S k) ltac:(simpl; lia)).
  by rewrite <- !Nat.add_succ_comm in Hagree.
Qed.

(** ** Failure of the engine *)

(** X1. Non-streaming mode, lines 65-72: when the engine's generator
    raises after its elements and the client stayed connected, the
    exception leaves the handler as it is; the elements consumed so far
    are dropped and [engine.abort] is not called. *)
Theorem generate_blocking_engine_failure self request d prompt_arg stream
    sampling_params e st :
  valid_request request d prompt_arg stream sampling_params ->
  truthy stream = false ->
  let request_id := random_uuid (uuid_calls st) in
  let g := engine_generate (engine self) prompt_arg sampling_params request_id in
  ending g = GenRaises e ->
  (forall k, k < length (items g) ->
             disconnected_at request (polls st + k) = false) ->
  exists st',
    generate self request st = (Raised e, st')
    /\ log st' = log st
                 ++ [EngineGenerate prompt_arg sampling_params request_id]
                 ++ quiet_rounds (items g) ++ [GenNext]
    /\ aborted_ids (log st') = aborted_ids (log st).
Proof.
  intros Hvalid Hstream request_id g Hend Hquiet.
  rewrite (generate_valid _ _ _ _ _ _ _ _ _ Hvalid), Hstream.
  fold request_id. fold g.
  rewrite consume_connected by exact Hquiet. rewrite Hend.
  eexists. split; [reflexivity |]. simpl.
  split; [by rewrite <- app_assoc |].
  rewrite !aborted_ids_app, aborted_ids_quiet_rounds. simpl.
  by rewrite !app_nil_r.
Qed.

(** ** Invariants of every run *)

(** X2. Whatever the request, the engine and the transport: the handler
    calls [engine.abort] exactly when it answers with the plain response,
    which is always the empty 499 one, and then once, with the id drawn in
    this run; in every other case, exceptions included, it does not call
    it. *)
Theorem generate_abort_iff_499 self request st :
  let run := generate self request st in
  exists calls,
    log (snd run) = log st ++ calls
    /\ aborted_ids calls
       = match fst run with
         | Returned (Response _ _) => [random_uuid (uuid_calls st)]
         | _ => []
         end
    /\ match fst run with
       | Returned (Response content status) => content = [] /\ status = 499%Z
       | _ => True
       end.
Proof.
  cbv zeta.
  pose proof (generate_trace self request st) as Htrace. cbv zeta in Htrace.
  set (run := generate self request st) in *.
  destruct Htrace as [[Hst [e He]] | (_ & p & sp & rest & Hlog & _ & Hrest)].
  - exists []. rewrite Hst, He, app_nil_r. done.
  - exists (EngineGenerate p sp (random_uuid (uuid_calls st)) :: rest).
    split; [exact Hlog |].
    change (aborted_ids (EngineGenerate p sp (random_uuid (uuid_calls st))
                           :: rest)) with (aborted_ids rest).
    destruct Hrest as [[-> Hno] | [-> ->]]; [| done].
    destruct (fst run) as [e | [| |]]; done.
Qed.

(** X3. Whatever the request: either it is rejected with an exception and
    the handler has called nothing and drawn no id, or the handler drew
    exactly one id and made exactly one submission to the engine, with
    that id, before any other call. *)
Theorem generate_one_submission self request st :
  let run := generate self request st in
  let request_id := random_uuid (uuid_calls st) in
  exists calls,
    log (snd run) = log st ++ calls
    /\ ((calls = [] /\ uuid_calls (snd run) = uuid_calls st
         /\ polls (snd run) = polls st /\ exists e, fst run = Raised e)
        \/ (uuid_calls (snd run) = S (uuid_calls st)
            /\ submitted_ids calls = [request_id]
            /\ exists prompt_arg sampling_params rest,
                 calls = EngineGenerate prompt_arg sampling_params request_id
                         :: rest)).
Proof.
  cbv zeta.
  pose proof (generate_trace self request st) as Htrace. cbv zeta in Htrace.
  set (run := generate self request st) in *.
  set (request_id := random_uuid (uuid_calls st)) in *.
  destruct Htrace as [[Hst He] | (Huuid & p & sp & rest & Hlog & Hsub & _)].
  - exists []. rewrite Hst, app_nil_r. split; [reflexivity |]. left. done.
  - exists (EngineGenerate p sp request_id :: rest).
    split; [exact Hlog |]. right. split; [exact Huuid |].
    split; [| by exists p, sp, rest].
    change (submitted_ids (EngineGenerate p sp request_id :: rest))
      with (request_id :: submitted_ids rest).
    by rewrite Hsub.
Qed.

(** X4. The handler reads the transport through the polls of
    [is_disconnected()] only: it makes none in streaming mode, and in
    non-streaming mode at most one for each element that arrives.  So two
    requests with the same body are handled alike when [stream] is true,
    or when their transports answer alike at the polls made while the
    elements arrive; what the client does once the last element has
    arrived is not noticed. *)
Theorem generate_unobserved_transport self request request' d prompt_arg
    stream sampling_params st :
  valid_request request d prompt_arg stream sampling_params ->
  json_result request' = json_result request ->
  let g := engine_generate (engine self) prompt_arg sampling_params
                           (random_uuid (uuid_calls st)) in
  truthy stream = true
  \/ (forall k, k < length (items g) ->
                disconnected_at request' (polls st + k)
                = disconnected_at request (polls st + k)) ->
  generate self request' st = generate self request st
  /\ if truthy stream
     then polls (snd (generate self request st)) = polls st
     else polls st <= polls (snd (generate self request st))
                   <= polls st + length (items g).
Proof.
  intros Hvalid Hjson g Hagree.
  assert (valid_request request' d prompt_arg stream sampling_params)
    as Hvalid'.
  { destruct Hvalid as (H1 & H2 & H3 & H4). repeat split; try assumption.
    by rewrite Hjson. }
  rewrite (generate_valid _ _ _ _ _ _ _ _ _ Hvalid),
    (generate_valid _ _ _ _ _ _ _ _ _ Hvalid').
  fold g.
  destruct (truthy stream) eqn:Htruthy; [split; reflexivity |].
  destruct Hagree as [Habsurd | Hagree]; [discriminate |].
  rewrite (consume_agree request request') by exact Hagree.
  split; [reflexivity |].
  destruct (consume_cases request (random_uuid (uuid_calls st)) (items g)
              (ending g) None (submitted st prompt_arg sampling_params))
    as [[_ ->] | (j & Hj & ->)].
  - destruct (ending g);
      [destruct (last (items g)); [destruct (render _) |] |]; simpl; lia.
  - simpl. lia.
Qed.

(** X5. Lines 37-38: when [request.json()] raises, or returns something
    that is not a dictionary, the handler fails before it has called
    anything: with the exception of [json()], with [TypeError] for a list
    (its [pop] wants an index), with [AttributeError] for the other
    values. *)
Theorem generate_bad_body self request st :
  match json_result request with
  | Raised e => generate self request st = (Raised e, st)
  | Returned (PDict _) => True
  | Returned (PList _) =>
      generate self request st
      = (Raised (TypeError "'str' object cannot be interpreted as an integer"),
         st)
  | Returned _ => generate self request st = (Raised (AttributeError "pop"), st)
  end.
Proof.
  destruct (json_result request) as [e | body] eqn:Hjson.
  - by apply generate_json_fails.
  - destruct body; try exact I;
      by apply generate_pop_fails with (1 := Hjson).
Qed.

(** X6. Two runs in a row, on any requests: when the two ids the generator
    of ids gives in a row differ, the second run never aborts the request
    the first run submitted. *)
Theorem second_run_spares_first self1 self2 request1 request2 st :
  random_uuid (uuid_calls st) <> random_uuid (S (uuid_calls st)) ->
  let run1 := generate self1 request1 st in
  let run2 := generate self2 request2 (snd run1) in
  exists calls1 calls2,
    log (snd run1) = log st ++ calls1
    /\ log (snd run2) = log (snd run1) ++ calls2
    /\ (submitted_ids calls1 = []
        \/ (submitted_ids calls1 = [random_uuid (uuid_calls st)]
            /\ random_uuid (uuid_calls st) ∉ aborted_ids calls2)).
Proof.
  intros Hfresh. cbv zeta.
  pose proof (generate_trace self1 request1 st) as Htrace1.
  cbv zeta in Htrace1.
  set (run1 := generate self1 request1 st) in *.
  pose proof (generate_trace self2 request2 (snd run1)) as Htrace2.
  cbv zeta in Htrace2.
  set (run2 := generate self2 request2 (snd run1)) in *.
  destruct Htrace1 as [[Hst1 _] | (Huuid & p & sp & rest & Hlog1 & Hsub & _)].
  - destruct Htrace2 as [[Hst2 _] | (_ & p2 & sp2 & rest2 & Hlog2 & _)].
    + exists [], []. rewrite Hst2, Hst1, !app_nil_r. split; [done |].
      split; [done |]. by left.
    + exists [], (EngineGenerate p2 sp2 (random_uuid (uuid_calls (snd run1)))
                    :: rest2).
      rewrite Hlog2, Hst1, !app_nil_r. split; [done |]. split; [done |].
      by left.
  - exists (EngineGenerate p sp (random_uuid (uuid_calls st)) :: rest).
    destruct Htrace2
      as [[Hst2 _] | (_ & p2 & sp2 & rest2 & Hlog2 & _ & Habort)].
    + exists []. rewrite Hst2, app_nil_r. split; [exact Hlog1 |].
      split; [done |]. right.
      change (submitted_ids (EngineGenerate p sp (random_uuid (uuid_calls st))
                               :: rest))
        with (random_uuid (uuid_calls st) :: submitted_ids rest).
      rewrite Hsub. split; [done |]. apply not_elem_of_nil.
    + exists (EngineGenerate p2 sp2 (random_uuid (uuid_calls (snd run1)))
                :: rest2).
      split; [exact Hlog1 |]. split; [exact Hlog2 |]. right.
      change (submitted_ids (EngineGenerate p sp (random_uuid (uuid_calls st))
                               :: rest))
        with (random_uuid (uuid_calls st) :: submitted_ids rest).
      rewrite Hsub. split; [done |].
      change (aborted_ids (EngineGenerate p2 sp2
                             (random_uuid (uuid_calls (snd run1))) :: rest2))
        with (aborted_ids rest2).
      destruct Habort as [[-> _] | [-> _]]; [apply not_elem_of_nil |].
      rewrite Huuid. intros Hin. apply list_elem_of_singleton in Hin.
      by apply Hfresh.
Qed.

End Runs.

(** ** The byte stream of a streaming response *)

(** A printable string is encoded octet for character. *)
Lemma encode_utf8_ascii s :
  Forall printable s ->
  exists bs, encode_utf8 s = Some bs /\ map Byte.to_N bs = s.
Proof.
  induction 1 as [| c s Hc Hs IH]; simpl.
  - by exists [].
  - destruct IH as (bs & -> & Hbs).
    unfold utf8_char, octet.
    destruct (N.ltb_spec c 128) as [_ | Hge]; [| unfold printable in Hc; lia].
    destruct (Byte.of_N c) as [b |] eqn:Hb.
    + simpl. exists (b :: bs). split; [reflexivity |].
      apply Byte.to_of_N in Hb. simpl. by rewrite Hb, Hbs.
    + apply Byte.of_N_None_iff in Hb. unfold printable in Hc. lia.
Qed.

(** X7. Line 52: whatever the prompt and the texts hold, every chunk of
    the body is, octet for character, the JSON dump of its element's text
    dictionary followed by one NUL, and every character of the dump lies
    between the space and the tilde: control characters, NUL included, and
    characters beyond ASCII travel escaped. *)
Theorem stream_results_ascii (g : generator RequestOutput) :
  Forall2 (fun request_output c =>
             map Byte.to_N c
             = json_dumps (Ret (text_outputs request_output)) ++ [0%N]
             /\ Forall printable
                  (json_dumps (Ret (text_outputs request_output))))
          (items g) (items (stream_results g)).
Proof.
  unfold stream_results. generalize (ending g) as fin.
  induction (items g) as [| request_output rest IH]; intros fin; simpl.
  - constructor.
  - pose proof (json_dumps_printable (Ret (text_outputs request_output)))
      as Hprintable.
    destruct (encode_utf8_ascii _ Hprintable) as (bs & Hbs & Hmap).
    unfold chunk_of. rewrite encode_utf8_app, Hbs. simpl.
    constructor; [| apply IH].
    split; [| exact Hprintable].
    rewrite map_app, Hmap. reflexivity.
Qed.

(** Blocks that each end with their only NUL. *)
Lemma framed_block_inj (d1 d2 r1 r2 : bytes) :
  x00 ∉ d1 -> x00 ∉ d2 ->
  d1 ++ x00 :: r1 = d2 ++ x00 :: r2 -> d1 = d2 /\ r1 = r2.
Proof.
  revert d2. induction d1 as [| b d1 IH]; intros [| b2 d2] H1 H2 Heq;
    simpl in Heq.
  - by injection Heq as ->.
  - injection Heq as <- _. exfalso. apply H2. left.
  - injection Heq as -> _. exfalso. apply H1. left.
  - injection Heq as -> Heq.
    apply not_elem_of_cons in H1 as [_ H1], H2 as [_ H2].
    destruct (IH d2 H1 H2 Heq) as [-> ->]. done.
Qed.

Lemma framed_concat_inj (cs1 cs2 : list bytes) :
  Forall (fun c => exists dumped, (x00 ∉ dumped) /\ c = dumped ++ [x00]) cs1 ->
  Forall (fun c => exists dumped, (x00 ∉ dumped) /\ c = dumped ++ [x00]) cs2 ->
  concat cs1 = concat cs2 -> cs1 = cs2.
Proof.
  intros H1. revert cs2.
  induction H1 as [| c1 cs1 (d1 & Hd1 & ->) _ IH];
    intros cs2 H2 Heq; destruct H2 as [| c2 cs2 (d2 & Hd2 & ->) H2].
  - reflexivity.
  - simpl in Heq. destruct d2; discriminate.
  - simpl in Heq. destruct d1; discriminate.
  - simpl in Heq. rewrite <- !app_assoc in Heq. simpl in Heq.
    destruct (framed_block_inj _ _ _ _ Hd1 Hd2 Heq) as [-> Hrest].
    f_equal. by apply IH.
Qed.

Lemma stream_results_framed (g : generator RequestOutput) :
  Forall (fun c => exists dumped, (x00 ∉ dumped) /\ c = dumped ++ [x00])
         (items (stream_results g)).
Proof.
  destruct (stream_items_spec (items g) (ending g)) as [Hitems _].
  fold (stream_results g) in Hitems.
  induction Hitems as [| request_output c rest cs (dumped & _ & Hnul & ->) _ IH];
    constructor; [by exists dumped | exact IH].
Qed.

(** X8. The framing of the body is unambiguous: two bodies with the same
    concatenated octets have the same chunks, so that a client that cuts
    the stream at the NUL octets gets the chunks back. *)
Theorem stream_results_framing (g1 g2 : generator RequestOutput) :
  concat (items (stream_results g1)) = concat (items (stream_results g2)) ->
  items (stream_results g1) = items (stream_results g2).
Proof.
  apply framed_concat_inj; apply stream_results_framed.
Qed.

(** ** These properties on concrete runs *)

Lemma generate_blocking_engine_failure_witness :
  exists st',
    Demo.run Scripts.failing Demo.dict_A Demo.connected
    = (Raised (EngineError 1), st')
    /\ log st' = log Demo.st0
                 ++ [EngineGenerate (PStr (py "Hello")) Demo.kw_A
                                    (Demo.random_uuid 0)]
                 ++ quiet_rounds (items Scripts.failing) ++ [GenNext]
    /\ aborted_ids (log st') = aborted_ids (log Demo.st0).
Proof.
  apply (generate_blocking_engine_failure Demo.SamplingParams_init
           Demo.random_uuid (Demo.scripted Scripts.failing)
           (Demo.request_of (PDict Demo.dict_A) Demo.connected) Demo.dict_A
           (PStr (py "Hello")) (PBool false) Demo.kw_A (EngineError 1)
           Demo.st0).
  - evaluate.
  - reflexivity.
  - reflexivity.
  - intros k Hk. reflexivity.
Defined.

(** The client leaves once the last element has come: not noticed. *)
Lemma generate_unobserved_transport_witness :
  Demo.run Demo.two_steps Demo.dict_A Scripts.gone_after_two
  = Demo.run Demo.two_steps Demo.dict_A Demo.connected
  /\ polls Demo.st0
     <= polls (snd (Demo.run Demo.two_steps Demo.dict_A Demo.connected))
     <= polls Demo.st0 + length (items Demo.two_steps).
Proof.
  apply (generate_unobserved_transport Demo.SamplingParams_init
           Demo.random_uuid (Demo.scripted Demo.two_steps)
           (Demo.request_of (PDict Demo.dict_A) Demo.connected)
           (Demo.request_of (PDict Demo.dict_A) Scripts.gone_after_two)
           Demo.dict_A (PStr (py "Hello")) (PBool false) Demo.kw_A Demo.st0).
  - evaluate.
  - reflexivity.
  - right. intros [| [| k]] Hk;
      [reflexivity | reflexivity | simpl in Hk; lia].
Defined.

(** In streaming mode a client that is gone from the start changes
    nothing: the handler does not ask. *)
Example streaming_never_polls :
  Demo.run Demo.two_steps Demo.dict_B Scripts.gone
  = Demo.run Demo.two_steps Demo.dict_B Demo.connected
  /\ polls (snd (Demo.run Demo.two_steps Demo.dict_B Scripts.gone)) = 0.
Proof. split; vm_compute; reflexivity. Qed.

Example gone_after_two_gets_200 :
  fst (Demo.run Demo.two_steps Demo.dict_A Scripts.gone_after_two)
  = Returned (JSONResponse (Ret [py "Hello world"])).
Proof. vm_compute. reflexivity. Qed.

(** No element, a client that is gone: no poll, hence no 499. *)
Example gone_and_nothing :
  fst (Demo.run Demo.nothing Demo.dict_A Scripts.gone)
  = Raised AssertionError.
Proof. vm_compute. reflexivity. Qed.

(** A completed request, then one whose client is gone. *)
Lemma second_run_spares_first_witness :
  exists calls1 calls2,
    log (snd (Demo.run Demo.two_steps Demo.dict_A Demo.connected))
    = log Demo.st0 ++ calls1
    /\ log (snd (generate Demo.SamplingParams_init Demo.random_uuid
                   (Demo.scripted Demo.two_steps)
                   (Demo.request_of (PDict Demo.dict_A) Scripts.gone)
                   (snd (Demo.run Demo.two_steps Demo.dict_A Demo.connected))))
       = log (snd (Demo.run Demo.two_steps Demo.dict_A Demo.connected))
           ++ calls2
    /\ (submitted_ids calls1 = []
        \/ (submitted_ids calls1 = [Demo.random_uuid 0]
            /\ Demo.random_uuid 0 ∉ aborted_ids calls2)).
Proof.
  apply (second_run_spares_first Demo.SamplingParams_init Demo.random_uuid
           (Demo.scripted Demo.two_steps) (Demo.scripted Demo.two_steps)
           (Demo.request_of (PDict Demo.dict_A) Demo.connected)
           (Demo.request_of (PDict Demo.dict_A) Scripts.gone) Demo.st0).
  vm_compute. discriminate.
Defined.

Example two_runs_aborts :
  aborted_ids
    (log (snd (generate Demo.SamplingParams_init Demo.random_uuid
                 (Demo.scripted Demo.two_steps)
                 (Demo.request_of (PDict Demo.dict_A) Scripts.gone)
                 (snd (Demo.run Demo.two_steps Demo.dict_A Demo.connected)))))
  = [py "id1"].
Proof. vm_compute. reflexivity. Qed.

Lemma stream_results_framing_witness :
  items (stream_results (Gen [Scripts.with_nul; Demo.hello] StopAsyncIteration))
  = items (stream_results
             (Gen [Scripts.with_nul; Demo.hello] (GenRaises (EngineError 1)))).
Proof.
  apply (stream_results_framing
           (Gen [Scripts.with_nul; Demo.hello] StopAsyncIteration)
           (Gen [Scripts.with_nul; Demo.hello] (GenRaises (EngineError 1)))).
  vm_compute. reflexivity.
Defined.

(** A NUL in the prompt and in the text is escaped; the chunk ends with
    its only NUL octet. *)
Example chunk_with_nul :
  option_map (map Byte.to_N) (chunk_of Scripts.with_nul)
  = Some (py "{" ++ [34%N] ++ py "text" ++ [34%N] ++ py ": [" ++ [34%N]
            ++ py "\u0000Hi\u0000" ++ [34%N] ++ py "]}" ++ [0%N]).
Proof. vm_compute. reflexivity. Qed.
